(** * KCB packing-list generator: DAT decoding, order expansion and grouping

    A shallow embedding of [packapp/utils/dat_parser_simple.py],
    [packapp/utils/packing_list_generator.py], the sorting step of
    [packapp/utils/pdf_mapper.py] and the batch loop of
    [packapp/utils/generate_packing_list.py], followed by the properties
    of the record decoder, the order expander and the grouping step.

    Conventions of the embedding.
    - A Python [str] is a [string]; a character [ascii] stands for the code
      point of the same number (U+0000 .. U+00FF).
    - A Python [int] is a [Z].
    - A Python exception is a value of [exn]; a call that may raise returns
      a [result].
    - [self] of [DATFileParser] is the record [Parser], passed in and out of
      every method that assigns to one of its attributes.
    - [datetime.now()] is a parameter [now] of the functions that read it. *)

From Stdlib Require Import Bool Arith ZArith NArith Lia List.
From Stdlib Require Import Ascii String.
From Stdlib Require Import Sorted Permutation.
Import ListNotations.

Open Scope string_scope.
Open Scope Z_scope.

(** ** Exceptions *)

Inductive exn : Type :=
| ValueError
| IndexError
| KeyError.

Inductive result (A : Type) : Type :=
| Ok (a : A)
| Raise (e : exn).

Arguments Ok {A} a.
Arguments Raise {A} e.

Definition bind {A B : Type} (r : result A) (k : A -> result B) : result B :=
  match r with
  | Ok a => k a
  | Raise e => Raise e
  end.

Notation "x <- r ;; k" := (bind r (fun x => k))
  (at level 61, r at next level, right associativity).

(** ** Python string primitives *)

Module PyStr.

(** [str.isspace] on one character, for the code points below 256. *)
Definition is_space (c : ascii) : bool :=
  let n := N_of_ascii c in
  ((9 <=? n) && (n <=? 13) || (28 <=? n) && (n <=? 32)
   || (n =? 133) || (n =? 160))%N.

(** [\d], and the digits [int()] accepts, for the code points below 256. *)
Definition is_digit (c : ascii) : bool :=
  let n := N_of_ascii c in ((48 <=? n) && (n <=? 57))%N.

Definition digit_val (c : ascii) : N := (N_of_ascii c - 48)%N.

Definition digit_char (d : N) : ascii := ascii_of_N (48 + d).

Fixpoint lstrip (s : string) : string :=
  match s with
  | "" => ""
  | String c r => if is_space c then lstrip r else s
  end.

Fixpoint rstrip (s : string) : string :=
  match s with
  | "" => ""
  | String c r =>
      match rstrip r with
      | "" => if is_space c then "" else String c ""
      | r' => String c r'
      end
  end.

(** [s.strip()] *)
Definition strip (s : string) : string := rstrip (lstrip s).

(** [s.rstrip(chars)] for a set of characters given as a predicate. *)
Fixpoint rstrip_chars (p : ascii -> bool) (s : string) : string :=
  match s with
  | "" => ""
  | String c r =>
      match rstrip_chars p r with
      | "" => if p c then "" else String c ""
      | r' => String c r'
      end
  end.

Fixpoint repeat_char (c : ascii) (n : nat) : string :=
  match n with
  | O => ""
  | S k => String c (repeat_char c k)
  end.

(** [s.ljust(width)] *)
Definition ljust (width : nat) (s : string) : string :=
  s ++ repeat_char " " (width - length s).

(** [s.zfill(width)]: zeros go after a leading sign. *)
Definition zfill (width : nat) (s : string) : string :=
  if (width <=? length s)%nat then s
  else
    let fill := repeat_char "0" (width - length s) in
    match s with
    | String c r =>
        if (Ascii.eqb c "+" || Ascii.eqb c "-")%bool
        then String c (fill ++ r)
        else fill ++ s
    | "" => fill
    end.

(** [s[a:b]] for [0 <= a <= b]; a slice past the end is cut short. *)
Definition slice (s : string) (a b : nat) : string :=
  substring a (b - a) s.

(** Decimal digits of a natural number, most significant first, put in
    front of [acc].  The number of bits bounds the number of digits. *)
Fixpoint str_digits (fuel : nat) (n : N) (acc : string) : string :=
  let acc' := String (digit_char (n mod 10)) acc in
  match fuel with
  | O => acc'
  | S f => if (n <? 10)%N then acc' else str_digits f (n / 10) acc'
  end.

Definition str_N (n : N) : string :=
  str_digits (N.to_nat (N.size n)) n "".

(** Every character of [s] satisfies [p]. *)
Fixpoint all_chars (p : ascii -> bool) (s : string) : bool :=
  match s with
  | "" => true
  | String c r => (p c && all_chars p r)%bool
  end.

(** [str(z)] for an [int]. *)
Definition py_str (z : Z) : string :=
  if z <? 0 then String "-" (str_N (Z.abs_N z)) else str_N (Z.abs_N z).

(** The digit part of an integer literal: digits, with single underscores
    between them.  [prev] tells whether the previous character was a
    digit. *)
Fixpoint parse_digits (prev : bool) (s : string) (acc : N) : option N :=
  match s with
  | "" => if prev then Some acc else None
  | String c r =>
      if is_digit c then parse_digits true r (10 * acc + digit_val c)
      else if (Ascii.eqb c "_" && prev)%bool then parse_digits false r acc
      else None
  end.

(** [int(s)] in base 10: surrounding whitespace is dropped, one sign is
    allowed, anything else raises [ValueError]. *)
Definition py_int (s : string) : result Z :=
  match strip s with
  | String c r =>
      if Ascii.eqb c "-" then
        match parse_digits false r 0 with
        | Some n => Ok (- Z.of_N n)
        | None => Raise ValueError
        end
      else if Ascii.eqb c "+" then
        match parse_digits false r 0 with
        | Some n => Ok (Z.of_N n)
        | None => Raise ValueError
        end
      else
        match parse_digits false (String c r) 0 with
        | Some n => Ok (Z.of_N n)
        | None => Raise ValueError
        end
  | "" => Raise ValueError
  end.

End PyStr.

Import PyStr.

(** ** Dictionaries with string keys, in insertion order *)

Definition dict (V : Type) : Type := list (string * V).

Fixpoint dict_lookup {V : Type} (d : dict V) (k : string) : option V :=
  match d with
  | [] => None
  | (k', v) :: r => if String.eqb k' k then Some v else dict_lookup r k
  end.

(** [d.get(k, default)] *)
Definition dict_get {V : Type} (d : dict V) (k : string) (default : V) : V :=
  match dict_lookup d k with
  | Some v => v
  | None => default
  end.

Definition dict_keys {V : Type} (d : dict V) : list string := map fst d.

(** ** The clock *)

Record datetime : Type := {
  year : Z;
  month : Z;
  day : Z;
  hour : Z
}.

(** A [datetime] as the standard library builds them. *)
Definition valid_datetime (t : datetime) : Prop :=
  1 <= year t <= 9999 /\ 1 <= month t <= 12 /\ 1 <= day t <= 31
  /\ 0 <= hour t <= 23.

(** [t.strftime("%m%d%H")] *)
Definition strftime_mdH (t : datetime) : string :=
  zfill 2 (py_str (month t)) ++ zfill 2 (py_str (day t))
  ++ zfill 2 (py_str (hour t)).

(** [t.strftime("%Y-%m-%d")] *)
Definition strftime_Ymd (t : datetime) : string :=
  zfill 4 (py_str (year t)) ++ "-" ++ zfill 2 (py_str (month t))
  ++ "-" ++ zfill 2 (py_str (day t)).

(** ** dat_parser_simple.py *)

Record OrderRecord : Type := {
  bank_id : string;
  order_id : string;
  priority : string;
  sort_code : string;
  account_number : string;
  check_digit : string;
  cheque_voucher_digits : string;
  credits_voucher_digits : string;
  book_style : string;
  number_of_books : Z;
  cheque_start_serial : string;
  credits_start_serial : string;
  personalization : string;
  branch_title : string;
  branch_address : string;
  signature_required : string;
  beneficiary_name : string;
  delivery_branch_code : string;
  delivery_branch_name : string
}.

(** The dictionary built by [_order_to_dict]: one expanded book. *)
Module Book.
Record t : Type := {
  book_style : string;
  book_type_description : string;
  currency : string;
  leaves : Z;
  branch_code : string;
  account_number : string;
  serial_number : string;
  account_name : string;
  branch_title : string;
  branch_address : string;
  delivery_branch_code : string;
  delivery_branch_name : string;
  number_of_books : Z
}.

Definition with_serial (b : t) (serial : string) : t :=
  {| book_style := book_style b;
     book_type_description := book_type_description b;
     currency := currency b;
     leaves := leaves b;
     branch_code := branch_code b;
     account_number := account_number b;
     serial_number := serial;
     account_name := account_name b;
     branch_title := branch_title b;
     branch_address := branch_address b;
     delivery_branch_code := delivery_branch_code b;
     delivery_branch_name := delivery_branch_name b;
     number_of_books := number_of_books b |}.
End Book.

(** The dictionary returned by [get_file_metadata]. *)
Module Metadata.
Record t : Type := {
  bank_id : string;
  run_number : string;
  supplier_code : string;
  file_date : string;
  total_orders : Z;
  total_books : Z;
  filename : string
}.
End Metadata.

(** The dictionary returned by [parse_file]. *)
Module Parsed.
Record t : Type := {
  orders : list OrderRecord;
  expanded_orders : list Book.t;
  extracted_order_number : string
}.
End Parsed.

Module DATFileParser.

Record BookStyleInfo : Type := {
  type : string;
  currency : string;
  leaves : Z
}.

Definition BOOK_STYLES : dict BookStyleInfo :=
  [ ("01", {| type := "Personal KES"; currency := "KES"; leaves := 50 |});
    ("02", {| type := "Corporate KES"; currency := "KES"; leaves := 100 |});
    ("25", {| type := "South African Rand Small"; currency := "ZAR"; leaves := 50 |});
    ("45", {| type := "South African Rand Large"; currency := "ZAR"; leaves := 100 |});
    ("31", {| type := "Sterling Pound Small"; currency := "GBP"; leaves := 50 |});
    ("51", {| type := "Sterling Pound Large"; currency := "GBP"; leaves := 100 |});
    ("32", {| type := "USA Dollar Small"; currency := "USD"; leaves := 50 |});
    ("52", {| type := "USA Dollar Large"; currency := "USD"; leaves := 100 |});
    ("40", {| type := "EURO Small"; currency := "EUR"; leaves := 50 |});
    ("69", {| type := "EURO Large"; currency := "EUR"; leaves := 100 |});
    ("71", {| type := "KES Banker's Cheques"; currency := "KES"; leaves := 100 |});
    ("72", {| type := "USD Banker's Cheques"; currency := "USD"; leaves := 100 |});
    ("73", {| type := "GBP Banker's Cheques"; currency := "GBP"; leaves := 100 |});
    ("74", {| type := "EUR Banker's Cheques"; currency := "EUR"; leaves := 100 |}) ].

Definition SERIAL_INCREMENTS : dict Z :=
  [ ("01", 50); ("02", 100); ("25", 50); ("45", 100); ("31", 50); ("51", 100);
    ("32", 50); ("52", 100); ("40", 50); ("69", 100); ("71", 100); ("72", 100);
    ("73", 100); ("74", 100) ].

(** The attributes of a parser object. *)
Record Parser : Type := {
  orders : list OrderRecord;
  filename : string;
  extracted_order_number : string
}.

(** [__init__] *)
Definition __init__ : Parser :=
  {| orders := []; filename := ""; extracted_order_number := "" |}.

Definition set_filename (self : Parser) (f : string) : Parser :=
  {| orders := orders self; filename := f;
     extracted_order_number := extracted_order_number self |}.

Definition set_extracted_order_number (self : Parser) (n : string) : Parser :=
  {| orders := orders self; filename := filename self;
     extracted_order_number := n |}.

(** [self.orders.append(order)] *)
Definition orders_append (self : Parser) (order : OrderRecord) : Parser :=
  {| orders := (orders self ++ [order])%list; filename := filename self;
     extracted_order_number := extracted_order_number self |}.

(** *** Order number from the file name *)

Fixpoint has_slash (p : string) : bool :=
  match p with
  | "" => false
  | String c r => (Ascii.eqb c "/" || has_slash r)%bool
  end.

(** [os.path.basename]: what follows the last slash. *)
Fixpoint basename (p : string) : string :=
  match p with
  | "" => ""
  | String c r =>
      if (Ascii.eqb c "/" || has_slash r)%bool then basename r else p
  end.

(** The longest run of digits at the front of [s]: [\d+], greedy. *)
Fixpoint span_digits (s : string) : string :=
  match s with
  | String c r => if is_digit c then String c (span_digits r) else ""
  | "" => ""
  end.

(** At most [n] digits at the front of [s]: [\d{..n}], greedy. *)
Fixpoint take_digits (n : nat) (s : string) : string :=
  match n, s with
  | S k, String c r => if is_digit c then String c (take_digits k r) else ""
  | _, _ => ""
  end.

Definition eqb_nocase (c upper lower : ascii) : bool :=
  (Ascii.eqb c upper || Ascii.eqb c lower)%bool.

(** [KCB-(\d+)] with [re.IGNORECASE], anchored at the front of [s];
    the result is group 1. *)
Definition match_kcb (s : string) : option string :=
  match s with
  | String k (String c (String b (String d r))) =>
      if (eqb_nocase k "K" "k" && eqb_nocase c "C" "c"
          && eqb_nocase b "B" "b" && Ascii.eqb d "-")%bool
      then match span_digits r with
           | "" => None
           | g => Some g
           end
      else None
  | _ => None
  end.

(** [(\d{3,6})] anchored at the front of [s]. *)
Definition match_digits_3_6 (s : string) : option string :=
  let g := take_digits 6 s in
  if (3 <=? length g)%nat then Some g else None.

(** [re.search]: the leftmost position where the anchored match succeeds. *)
Fixpoint re_search (m : string -> option string) (s : string) : option string :=
  match m s with
  | Some g => Some g
  | None =>
      match s with
      | "" => None
      | String _ r => re_search m r
      end
  end.

Definition extract_order_number_from_filename
    (now : datetime) (self : Parser) (file_path : string) : Parser * string :=
  let filename := basename file_path in
  let self := set_filename self filename in
  match re_search match_kcb filename with
  | Some g => (self, zfill 6 g)
  | None =>
      match re_search match_digits_3_6 filename with
      | Some g => (self, zfill 6 g)
      | None => (self, zfill 6 (strftime_mdH now))
      end
  end.

(** *** Decoding one line *)

(** [_parse_order_record].  The [try] block is the [bind] chain; the
    [except (ValueError, IndexError)] clause turns both exceptions into
    [None]. *)
Definition _parse_order_record (line : string) : result (option OrderRecord) :=
  let line := if (length line <? 210)%nat then ljust 210 line else line in
  let body : result OrderRecord :=
    let num_books_str := strip (slice line 26 30) in
    num_books <- (match num_books_str with
                  | "" => Ok 1
                  | _ => py_int num_books_str
                  end) ;;
    Ok {| bank_id := strip (slice line 0 2);
          order_id := strip (slice line 2 3);
          priority := strip (slice line 3 4);
          sort_code := strip (slice line 4 9);
          account_number := strip (slice line 9 19);
          check_digit := strip (slice line 19 20);
          cheque_voucher_digits := strip (slice line 20 22);
          credits_voucher_digits := strip (slice line 22 24);
          book_style := strip (slice line 24 26);
          number_of_books := num_books;
          cheque_start_serial := strip (slice line 30 36);
          credits_start_serial := strip (slice line 36 42);
          personalization := strip (slice line 42 78);
          branch_title := strip (slice line 78 108);
          branch_address := strip (slice line 108 138);
          signature_required := strip (slice line 138 139);
          beneficiary_name := strip (slice line 139 169);
          delivery_branch_code := strip (slice line 169 174);
          delivery_branch_name := strip (slice line 174 210) |} in
  match body with
  | Ok order => Ok (Some order)
  | Raise ValueError => Ok None
  | Raise IndexError => Ok None
  | Raise e => Raise e
  end.

(** *** Expansion *)

(** [_order_to_dict] *)
Definition _order_to_dict (order : OrderRecord) (serial : string) : Book.t :=
  let book_info := dict_lookup BOOK_STYLES (book_style order) in
  {| Book.book_style := book_style order;
     Book.book_type_description :=
       match book_info with Some i => type i | None => "Unknown" end;
     Book.currency :=
       match book_info with Some i => currency i | None => "KES" end;
     Book.leaves :=
       match book_info with Some i => leaves i | None => 50 end;
     Book.branch_code := sort_code order;
     Book.account_number := account_number order;
     Book.serial_number := serial;
     Book.account_name := strip (personalization order);
     Book.branch_title := strip (branch_title order);
     Book.branch_address := strip (branch_address order);
     Book.delivery_branch_code := delivery_branch_code order;
     Book.delivery_branch_name := strip (delivery_branch_name order);
     Book.number_of_books := number_of_books order |}.

(** The number of values of [range(a, b)]. *)
Definition range_len (a b : Z) : nat := Z.to_nat (b - a).

(** The inner loop of [_expand_orders_with_books], [count] iterations
    left: each one steps [current_serial] and appends one book. *)
Fixpoint additional_books (order : OrderRecord) (increment : Z) (count : nat)
    (current_serial : Z) (expanded : list Book.t) : list Book.t :=
  match count with
  | O => expanded
  | S k =>
      let current_serial := current_serial + increment in
      let new_serial := zfill 6 (py_str current_serial) in
      additional_books order increment k current_serial
        (expanded ++ [_order_to_dict order new_serial])%list
  end.

(** The outer loop of [_expand_orders_with_books] over the orders left,
    with the list [expanded] built so far.  [int()] is not guarded: its
    exception leaves the loop and the function. *)
Fixpoint expand_loop (todo : list OrderRecord) (expanded : list Book.t)
    : result (list Book.t) :=
  match todo with
  | [] => Ok expanded
  | order :: rest =>
      let book_style := book_style order in
      let increment := dict_get SERIAL_INCREMENTS book_style 50 in
      let expanded :=
        (expanded ++ [_order_to_dict order (cheque_start_serial order)])%list in
      current_serial <- py_int (cheque_start_serial order) ;;
      expand_loop rest
        (additional_books order increment
           (range_len 1 (number_of_books order)) current_serial expanded)
  end.

Definition _expand_orders_with_books (self : Parser) : result (list Book.t) :=
  expand_loop (orders self) [].

(** What one iteration of the outer loop appends for [order], once its
    start serial has been read as [current_serial]. *)
Definition order_books (order : OrderRecord) (current_serial : Z)
    : list Book.t :=
  additional_books order
    (dict_get SERIAL_INCREMENTS (book_style order) 50)
    (range_len 1 (number_of_books order)) current_serial
    [_order_to_dict order (cheque_start_serial order)].

(** *** Metadata *)

(** [sum(order.number_of_books for order in orders)] *)
Definition sum_number_of_books (os : list OrderRecord) : Z :=
  fold_left (fun acc order => acc + number_of_books order) os 0.

Definition get_file_metadata (now : datetime) (self : Parser) : Metadata.t :=
  let file_date := strftime_Ymd now in
  {| Metadata.bank_id := "01";
     Metadata.run_number := extracted_order_number self;
     Metadata.supplier_code := "TD";
     Metadata.file_date := file_date;
     Metadata.total_orders := Z.of_nat (List.length (orders self));
     Metadata.total_books := sum_number_of_books (orders self);
     Metadata.filename := filename self |}.

(** *** Parsing a file *)

Definition is_newline (c : ascii) : bool :=
  (Ascii.eqb c "010" || Ascii.eqb c "013")%bool.

(** The loop of [parse_file] over the lines of the file. *)
Fixpoint parse_lines (lines : list string) (self : Parser)
    : Parser * result unit :=
  match lines with
  | [] => (self, Ok tt)
  | line :: rest =>
      match strip line with
      | "" => parse_lines rest self
      | _ =>
          if (3 <=? length line)%nat then
            match get 2 line with
            | Some order_id =>
                if Ascii.eqb order_id "1" then
                  match _parse_order_record line with
                  | Ok (Some order) => parse_lines rest (orders_append self order)
                  | Ok None => parse_lines rest self
                  | Raise e => (self, Raise e)
                  end
                else parse_lines rest self
            | None => (self, Raise IndexError)
            end
          else parse_lines rest self
      end
  end.

(** [parse_file], on the lines [file.readlines()] returns for the file at
    [file_path]. *)
Definition parse_file (now : datetime) (self : Parser) (file_path : string)
    (readlines : list string) : Parser * result Parsed.t :=
  let '(self, number) := extract_order_number_from_filename now self file_path in
  let self := set_extracted_order_number self number in
  let lines := map (rstrip_chars is_newline) readlines in
  match parse_lines lines self with
  | (self, Raise e) => (self, Raise e)
  | (self, Ok _) =>
      match _expand_orders_with_books self with
      | Raise e => (self, Raise e)
      | Ok expanded =>
          (self, Ok {| Parsed.orders := orders self;
                       Parsed.expanded_orders := expanded;
                       Parsed.extracted_order_number :=
                         extracted_order_number self |})
      end
  end.

(** [parse_file] together with the reading of the file.  [read] is what
    [open(file_path, 'r', encoding='utf-8')] and [file.readlines()] give:
    the lines of the file, or the exception one of them raises (a path
    that cannot be opened, bytes that are not UTF-8), of whatever class
    [E].  The order number is taken from the path and stored before the
    file is opened; an exception of the reading leaves [parse_file] as it
    was raised. *)
Definition parse_file_read {E : Type} (now : datetime) (self : Parser)
    (file_path : string) (read : E + list string)
    : Parser * (E + result Parsed.t) :=
  match read with
  | inr readlines =>
      let '(self, r) := parse_file now self file_path readlines in
      (self, inr r)
  | inl e =>
      let '(self, number) :=
        extract_order_number_from_filename now self file_path in
      (set_extracted_order_number self number, inl e)
  end.

End DATFileParser.

(** ** [sorted]

    A stable insertion sort: [before a b] tells that [a] has to come
    strictly before [b].  An element inserted from the left passes only
    the elements that have to come before it, so equal elements keep
    their order, as with Python's [sorted], with or without
    [reverse=True]. *)

Fixpoint insert_sorted {A : Type} (before : A -> A -> bool) (x : A)
    (l : list A) : list A :=
  match l with
  | [] => [x]
  | y :: r => if before y x then y :: insert_sorted before x r else x :: l
  end.

Definition sorted {A : Type} (before : A -> A -> bool) (l : list A) : list A :=
  fold_right (insert_sorted before) [] l.

(** ** packing_list_generator.py *)

(** One row of a packing list, as built in [generate_packing_lists]. *)
Module Entry.
Record t : Type := {
  book_style : string;
  account_name : string;
  account_number : string;
  start_serial : string;
  branch_code : string;
  currency : string;
  leaves : Z
}.
End Entry.

(** One packing list: the page of one delivery branch. *)
Module PackingList.
Record t : Type := {
  bank_name : string;
  order_number : string;
  order_date : string;
  delivery_branch_code : string;
  delivery_branch_name : string;
  total_books : Z;
  books : list Entry.t
}.
End PackingList.

Module PackingListGenerator.

Definition bank_name : string := "KCB Bank Ltd".

(** [grouped[k].append(v)] on a [defaultdict(list)]. *)
Fixpoint dict_append_to {V : Type} (grouped : dict (list V)) (k : string)
    (v : V) : dict (list V) :=
  match grouped with
  | [] => [(k, [v])]
  | (k', vs) :: r =>
      if String.eqb k' k then (k', (vs ++ [v])%list) :: r
      else (k', vs) :: dict_append_to r k v
  end.

Definition group_books_by_delivery_branch (expanded_orders : list Book.t)
    : dict (list Book.t) :=
  fold_left
    (fun grouped order =>
       let delivery_code := strip (Book.delivery_branch_code order) in
       match delivery_code with
       | "" => grouped
       | _ => dict_append_to grouped delivery_code order
       end)
    expanded_orders [].

(** The dictionary appended to [book_entries] for one book. *)
Definition book_entry (book : Book.t) : Entry.t :=
  {| Entry.book_style := Book.book_style book;
     Entry.account_name := strip (Book.account_name book);
     Entry.account_number := strip (Book.account_number book);
     Entry.start_serial := strip (Book.serial_number book);
     Entry.branch_code := strip (Book.delivery_branch_code book);
     Entry.currency := Book.currency book;
     Entry.leaves := Book.leaves book |}.

(** The loop of [generate_packing_lists] over the sorted branch codes. *)
Fixpoint packing_loop (grouped_books : dict (list Book.t))
    (order_number order_date : string) (codes : list string)
    (packing_lists : list PackingList.t) : result (list PackingList.t) :=
  match codes with
  | [] => Ok packing_lists
  | branch_code :: rest =>
      books <- (match dict_lookup grouped_books branch_code with
                | Some books => Ok books
                | None => Raise KeyError
                end) ;;
      first <- (match books with
                | book :: _ => Ok book
                | [] => Raise IndexError
                end) ;;
      let branch_name := strip (Book.delivery_branch_name first) in
      let book_entries := map book_entry books in
      packing_loop grouped_books order_number order_date rest
        (packing_lists ++
           [ {| PackingList.bank_name := bank_name;
                PackingList.order_number := order_number;
                PackingList.order_date := order_date;
                PackingList.delivery_branch_code := branch_code;
                PackingList.delivery_branch_name := branch_name;
                PackingList.total_books := Z.of_nat (List.length books);
                PackingList.books := book_entries |} ])%list
  end.

Definition generate_packing_lists (expanded_orders : list Book.t)
    (order_number order_date : string) : result (list PackingList.t) :=
  let grouped_books := group_books_by_delivery_branch expanded_orders in
  packing_loop grouped_books order_number order_date
    (sorted String.ltb (dict_keys grouped_books)) [].

(** [sum(p['total_books'] for p in packing_lists)] *)
Definition sum_total_books (packing_lists : list PackingList.t) : Z :=
  fold_left (fun acc p => acc + PackingList.total_books p) packing_lists 0.

End PackingListGenerator.

(** ** pdf_mapper.py: the content of the document *)

Module PackingListPDFMapper.

(** One data row of the books table: book code, account name, account
    number, start serial, branch code, delivery branch. *)
Definition Row : Type :=
  (string * string * string * string * string * string)%type.

Definition row_book_style (r : Row) : string :=
  let '(code, _, _, _, _, _) := r in code.

Definition row_branch_code (r : Row) : string :=
  let '(_, _, _, _, branch_code, _) := r in branch_code.

(** The row appended to [table_data] for one book. *)
Definition book_row (delivery_branch_name : string) (book : Entry.t) : Row :=
  (Entry.book_style book, Entry.account_name book,
   Entry.account_number book, Entry.start_serial book,
   Entry.branch_code book, delivery_branch_name).

(** The data rows of [_create_books_table], below the header row:
    [sorted(books, key=lambda x: x['book_style'], reverse=True)], one row
    per book. *)
Definition _create_books_table (books : list Entry.t)
    (delivery_branch_name : string) : list Row :=
  let sorted_books :=
    sorted (fun x y => String.ltb (Entry.book_style y) (Entry.book_style x))
           books in
  map (book_row delivery_branch_name) sorted_books.

(** One page: the packing list shown in its header and its table rows. *)
Record Page : Type := {
  header : PackingList.t;
  table : list Row
}.

(** [generate_packing_list_pdf]: one page per packing list. *)
Definition generate_packing_list_pdf (packing_lists : list PackingList.t)
    : list Page :=
  map (fun packing_list =>
         {| header := packing_list;
            table := _create_books_table
                       (PackingList.books packing_list)
                       (PackingList.delivery_branch_name packing_list) |})
      packing_lists.

(** [Counter]: one more occurrence of [k].  A new key goes last. *)
Fixpoint counter_add (counts : dict Z) (k : string) : dict Z :=
  match counts with
  | [] => [(k, 1)]
  | (k', n) :: r =>
      if String.eqb k' k then (k', n + 1) :: r
      else (k', n) :: counter_add r k
  end.

(** [Counter(keys)] *)
Definition Counter (keys : list string) : dict Z :=
  fold_left counter_add keys [].

(** [x < y] on tuples [(str, int)]. *)
Definition item_ltb (x y : string * Z) : bool :=
  (String.ltb (fst x) (fst y)
   || (String.eqb (fst x) (fst y) && (snd x <? snd y)))%bool.

(** The rows of [_create_book_style_summary_table]: the header row, one
    row per book style with its count, and the total row. *)
Definition _create_book_style_summary_table (books : list Entry.t)
    : list (list string) :=
  let book_style_counts := Counter (map Entry.book_style books) in
  let sorted_styles := sorted (fun x y => item_ltb y x) book_style_counts in
  let table_data := [["Book Style"; "Number of Books"]] in
  let table_data :=
    (table_data
     ++ map (fun '(book_style, count) => [book_style; py_str count])
            sorted_styles)%list in
  let total_books := fold_left Z.add (map snd book_style_counts) 0 in
  (table_data ++ [["TOTAL"; py_str total_books]])%list.

End PackingListPDFMapper.

(** ** generate_packing_list.py *)

Module PackingListOrchestrator.

Import DATFileParser PackingListGenerator PackingListPDFMapper.

(** The orchestrator owns one parser for its whole life; the generator
    and the PDF mapper have no attribute that changes. *)
Record Orchestrator : Type := {
  parser : Parser
}.

(** [__init__] *)
Definition __init__ : Orchestrator := {| parser := DATFileParser.__init__ |}.

(** A DAT file on disk: its path and the lines [readlines()] gives. *)
Record DatFile : Type := {
  path : string;
  readlines : list string
}.

(** [process_dat_file]; the result is the content of the PDF written.
    Each [except] clause of the method re-raises. *)
Definition process_dat_file (now : datetime) (self : Orchestrator)
    (dat_file : DatFile) : Orchestrator * result (list Page) :=
  match parse_file now (parser self) (path dat_file) (readlines dat_file) with
  | (p, Raise e) => ({| parser := p |}, Raise e)
  | (p, Ok parsed_data) =>
      let self := {| parser := p |} in
      let expanded_orders := Parsed.expanded_orders parsed_data in
      let metadata := get_file_metadata now (parser self) in
      let order_number := "KCB-" ++ Metadata.run_number metadata in
      let order_date := Metadata.file_date metadata in
      match generate_packing_lists expanded_orders order_number order_date with
      | Raise e => (self, Raise e)
      | Ok packing_lists => (self, Ok (generate_packing_list_pdf packing_lists))
      end
  end.

(** The loop of [process_multiple_files]: a file that raises is skipped. *)
Fixpoint process_loop (now : datetime) (self : Orchestrator)
    (dat_files : list DatFile) (generated_pdfs : list (list Page))
    : Orchestrator * list (list Page) :=
  match dat_files with
  | [] => (self, generated_pdfs)
  | dat_file :: rest =>
      match process_dat_file now self dat_file with
      | (self, Ok pdf) => process_loop now self rest (generated_pdfs ++ [pdf])%list
      | (self, Raise _) => process_loop now self rest generated_pdfs
      end
  end.

Definition process_multiple_files (now : datetime) (self : Orchestrator)
    (dat_files : list DatFile) : Orchestrator * list (list Page) :=
  process_loop now self dat_files [].

End PackingListOrchestrator.

(** ** The column layout, as a table

    The string fields of [_parse_order_record] with their column ranges
    [start, end); [number_of_books] is read from columns [26, 30). *)

Definition string_fields : list (nat * nat * (OrderRecord -> string)) :=
  [ (0, 2, bank_id); (2, 3, order_id); (3, 4, priority); (4, 9, sort_code);
    (9, 19, account_number); (19, 20, check_digit);
    (20, 22, cheque_voucher_digits); (22, 24, credits_voucher_digits);
    (24, 26, book_style); (30, 36, cheque_start_serial);
    (36, 42, credits_start_serial); (42, 78, personalization);
    (78, 108, branch_title); (108, 138, branch_address);
    (138, 139, signature_required); (139, 169, beneficiary_name);
    (169, 174, delivery_branch_code); (174, 210, delivery_branch_name) ]%nat.

(** ** Sample data *)

Module Samples.

Import DATFileParser.

Definition now0 : datetime :=
  {| year := 2025; month := 9; day := 29; hour := 7 |}.

(** An order with the given style, count, start serial and delivery
    branch code, its other fields empty. *)
Definition order_with (style : string) (count : Z) (serial code : string)
    : OrderRecord :=
  {| bank_id := "01"; order_id := "1"; priority := ""; sort_code := "";
     account_number := ""; check_digit := ""; cheque_voucher_digits := "";
     credits_voucher_digits := ""; book_style := style;
     number_of_books := count; cheque_start_serial := serial;
     credits_start_serial := ""; personalization := ""; branch_title := "";
     branch_address := ""; signature_required := ""; beneficiary_name := "";
     delivery_branch_code := code; delivery_branch_name := "" |}.

(** A parser object holding the given orders. *)
Definition parser_with (os : list OrderRecord) : Parser :=
  {| orders := os; filename := ""; extracted_order_number := "" |}.

(** An order line: ["011"], blanks up to column 24, the style (2
    characters), the count (4), the start serial (6), blanks up to column
    169 and the delivery branch code. *)
Definition order_line (style count serial code : string) : string :=
  "011" ++ repeat_char " " 21 ++ style ++ count ++ serial
  ++ repeat_char " " 133 ++ code.

Definition book_with (style serial code : string) : Book.t :=
  _order_to_dict (order_with style 1 serial code) serial.

(** Two books of style 01 from serial 000001. *)
Definition good_order : OrderRecord := order_with "01" 2 "000001" "01320".

(** A start serial that is not a number. *)
Definition bad_order : OrderRecord := order_with "01" 1 "ABC" "01320".

(** A count of zero, as decoded from the count columns [0000]. *)
Definition zero_order : OrderRecord := order_with "02" 0 "000100" "00001".

(** A start serial of one digit, as decoded from the columns [1     ]. *)
Definition short_serial_order : OrderRecord := order_with "01" 1 "1" "01320".

(** A book for branch 01320 and a book whose delivery code is blank. *)
Definition branch_book : Book.t := book_with "02" "000100" "01320".
Definition blank_code_book : Book.t := book_with "01" "000001" "     ".

(** A second book whose serial passes 999999. *)
Definition overflow_order : OrderRecord := order_with "01" 2 "999999" "01320".

End Samples.

Module BatchSamples.

Import PackingListOrchestrator Samples.

(** One order of style 01 for branch 01320. *)
Definition file_a : DatFile :=
  {| path := "KCB-618.dat";
     readlines := [order_line "01" "0001" "000001" "01320"] |}.

(** One order of style 02 for branch 02000. *)
Definition file_b : DatFile :=
  {| path := "KCB-619.dat";
     readlines := [order_line "02" "0001" "000500" "02000"] |}.

(** One order whose start serial is not a number. *)
Definition file_bad : DatFile :=
  {| path := "KCB-620.dat";
     readlines := [order_line "01" "0001" "ABC   " "01320"] |}.

(** The delivery branch codes on the pages of a document. *)
Definition page_codes (pdf : list PackingListPDFMapper.Page) : list string :=
  map (fun page =>
         PackingList.delivery_branch_code (PackingListPDFMapper.header page))
      pdf.

End BatchSamples.

(** * Properties *)

(** ** The model on sample inputs *)

Section SampleRuns.

Import DATFileParser Samples.

Example py_str_samples :
  py_str 1049 = "1049" /\ py_str (-5) = "-5" /\ py_str 0 = "0".
Proof. repeat split. Qed.

Example zfill_samples :
  zfill 6 "51" = "000051" /\ zfill 6 "-5" = "-00005"
  /\ zfill 6 "1234567" = "1234567" /\ zfill 6 "" = "000000".
Proof. repeat split. Qed.

Example py_int_samples :
  py_int "000051" = Ok 51 /\ py_int " -12 " = Ok (-12)
  /\ py_int "1_000" = Ok 1000 /\ py_int "" = Raise ValueError
  /\ py_int "12A" = Raise ValueError /\ py_int "1__0" = Raise ValueError
  /\ py_int "_1" = Raise ValueError /\ py_int "1_" = Raise ValueError
  /\ py_int "+" = Raise ValueError /\ py_int "1 2" = Raise ValueError.
Proof. repeat split. Qed.

Example strip_samples :
  strip "  a b  " = "a b" /\ strip "   " = "" /\ strip "" = "".
Proof. repeat split. Qed.

Example basename_samples :
  basename "/tmp/x/KCB-618.dat" = "KCB-618.dat" /\ basename "a/" = ""
  /\ basename "noop.dat" = "noop.dat".
Proof. repeat split. Qed.

Example order_line_decoded :
  _parse_order_record (order_line "01" "0002" "000001" "01320")
  = Ok (Some good_order)
  /\ _parse_order_record (order_line "01" "00x2" "000001" "01320") = Ok None
  /\ _parse_order_record (order_line "02" "    " "000100" "00001")
     = Ok (Some (order_with "02" 1 "000100" "00001")).
Proof. repeat split. Qed.

(** A header line, an order line of two books of style 01 from serial
    000001 and a trailer line: two books, serials 000001 and 000051,
    [total_books] 2. *)
Example header_order_trailer :
  let '(self, parsed) :=
    parse_file now0 __init__ "KCB-618.dat"
      [ "010HEADER"; order_line "01" "0002" "000001" "01320"; "014TRAILER" ] in
  (exists parsed_data,
     parsed = Ok parsed_data
     /\ map Book.serial_number (Parsed.expanded_orders parsed_data)
        = ["000001"; "000051"])
  /\ Metadata.total_books (get_file_metadata now0 self) = 2
  /\ Metadata.file_date (get_file_metadata now0 self) = "2025-09-29".
Proof. vm_compute. split; [eexists; split; reflexivity | split; reflexivity]. Qed.

(** An unknown style falls back on the defaults. *)
Example unknown_style_defaults :
  let book := _order_to_dict (order_with "99" 1 "000007" "01320") "000007" in
  Book.book_type_description book = "Unknown" /\ Book.currency book = "KES"
  /\ Book.leaves book = 50 /\ Book.serial_number book = "000007".
Proof. repeat split. Qed.

End SampleRuns.

(** ** Strings and decimal numerals *)

Section StringFacts.

Lemma string_length_app (s t : string) :
  length (s ++ t) = (length s + length t)%nat.
Proof. induction s as [|c s IH]; simpl; [reflexivity | now rewrite IH]. Qed.

Lemma length_repeat_char (c : ascii) (n : nat) :
  length (repeat_char c n) = n.
Proof. induction n as [|n IH]; simpl; [reflexivity | now rewrite IH]. Qed.

Lemma zfill_length (w : nat) (s : string) :
  length (zfill w s) = Nat.max w (length s).
Proof.
  unfold zfill. destruct (Nat.leb_spec w (length s)) as [Hle | Hlt].
  - lia.
  - destruct s as [|c r].
    + rewrite length_repeat_char. simpl. lia.
    + destruct (Ascii.eqb c "+" || Ascii.eqb c "-")%bool; simpl;
        rewrite string_length_app, length_repeat_char; simpl in *; lia.
Qed.

Lemma all_chars_app (p : ascii -> bool) (s t : string) :
  all_chars p (s ++ t) = (all_chars p s && all_chars p t)%bool.
Proof.
  induction s as [|c s IH]; simpl; [reflexivity |].
  now rewrite IH, andb_assoc.
Qed.

Lemma all_chars_repeat (p : ascii -> bool) (c : ascii) (n : nat) :
  p c = true -> all_chars p (repeat_char c n) = true.
Proof. intros Hc. induction n as [|n IH]; simpl; [reflexivity | now rewrite Hc]. Qed.

Lemma all_chars_weaken (p q : ascii -> bool) (s : string) :
  (forall c, p c = true -> q c = true) ->
  all_chars p s = true -> all_chars q s = true.
Proof.
  intros Hpq. induction s as [|c s IH]; simpl; [reflexivity |].
  intros [Hc Hs]%andb_prop. now rewrite (Hpq _ Hc), IH.
Qed.

Lemma lstrip_no_space (s : string) :
  all_chars (fun c => negb (is_space c)) s = true -> lstrip s = s.
Proof.
  destruct s as [|c s]; simpl; [reflexivity |].
  intros [Hc _]%andb_prop. now apply negb_true_iff in Hc as ->.
Qed.

Lemma rstrip_no_space (s : string) :
  all_chars (fun c => negb (is_space c)) s = true -> rstrip s = s.
Proof.
  induction s as [|c s IH]; simpl; [reflexivity |].
  intros [Hc Hs]%andb_prop. rewrite (IH Hs).
  apply negb_true_iff in Hc. rewrite Hc. now destruct s.
Qed.

Lemma strip_no_space (s : string) :
  all_chars (fun c => negb (is_space c)) s = true -> strip s = s.
Proof.
  intros H. unfold strip. rewrite (lstrip_no_space _ H).
  now apply rstrip_no_space.
Qed.

Lemma is_digit_not_space (c : ascii) :
  is_digit c = true -> negb (is_space c) = true.
Proof.
  unfold is_digit, is_space. intros H.
  apply andb_prop in H as [H1 H2].
  apply N.leb_le in H1, H2. apply negb_true_iff.
  repeat (apply orb_false_iff; split);
    try (apply andb_false_iff);
    try (now right; apply N.leb_gt; lia);
    try (now apply N.eqb_neq; lia).
Qed.

Lemma is_digit_not_sign (c : ascii) :
  is_digit c = true ->
  Ascii.eqb c "+" = false /\ Ascii.eqb c "-" = false.
Proof.
  intros H. split; apply Ascii.eqb_neq; intros ->; discriminate H.
Qed.

Lemma digit_char_spec (d : N) :
  (d < 10)%N ->
  is_digit (digit_char d) = true /\ digit_val (digit_char d) = d.
Proof.
  intros H.
  assert (d = 0 \/ d = 1 \/ d = 2 \/ d = 3 \/ d = 4 \/ d = 5 \/ d = 6
          \/ d = 7 \/ d = 8 \/ d = 9)%N as Hd by lia.
  repeat (destruct Hd as [-> | Hd]; [split; reflexivity |]).
  subst d. split; reflexivity.
Qed.

End StringFacts.

Section Decimal.

Lemma mod10_lt (n : N) : (n mod 10 < 10)%N.
Proof. apply N.mod_lt. discriminate. Qed.

Lemma str_digits_head (fuel : nat) (n : N) (acc : string) :
  exists c r, str_digits fuel n acc = String c r /\ is_digit c = true.
Proof.
  revert n acc. induction fuel as [|f IH]; intros n acc; simpl.
  - eexists _, _. split; [reflexivity |]. apply digit_char_spec, mod10_lt.
  - destruct (n <? 10)%N.
    + eexists _, _. split; [reflexivity |]. apply digit_char_spec, mod10_lt.
    + apply IH.
Qed.

Lemma all_chars_digit_cons (d : N) (acc : string) :
  all_chars is_digit acc = true ->
  all_chars is_digit (String (digit_char (d mod 10)) acc) = true.
Proof.
  intros Hacc. cbn [all_chars].
  now rewrite Hacc, (proj1 (digit_char_spec _ (mod10_lt d))).
Qed.

Lemma str_digits_all_digits (fuel : nat) (n : N) (acc : string) :
  all_chars is_digit acc = true ->
  all_chars is_digit (str_digits fuel n acc) = true.
Proof.
  revert n acc. induction fuel as [|f IH]; intros n acc Hacc;
    cbn [str_digits].
  - now apply all_chars_digit_cons.
  - destruct (n <? 10)%N.
    + now apply all_chars_digit_cons.
    + now apply IH, all_chars_digit_cons.
Qed.

Lemma parse_digit_step (p : bool) (d : N) (acc : string) (a : N) :
  (d < 10)%N ->
  parse_digits p (String (digit_char d) acc) a
  = parse_digits true acc (10 * a + d).
Proof.
  intros Hd. simpl. destruct (digit_char_spec d Hd) as [-> ->]. reflexivity.
Qed.

(** Reading back the digits written by [str_digits] gives the number,
    when the fuel covers it. *)
Lemma parse_str_digits (fuel : nat) (n : N) (acc : string) (p : bool) :
  (n < 10 * 2 ^ N.of_nat fuel)%N ->
  parse_digits p (str_digits fuel n acc) 0 = parse_digits true acc n.
Proof.
  revert n acc p. induction fuel as [|f IH]; intros n acc p Hn.
  - assert (n < 10)%N as Hlt by (simpl in Hn; lia).
    simpl str_digits. rewrite parse_digit_step by apply mod10_lt.
    f_equal. rewrite N.mod_small; lia.
  - simpl str_digits. destruct (N.ltb_spec n 10) as [Hlt | Hge].
    + rewrite parse_digit_step by apply mod10_lt.
      f_equal. rewrite N.mod_small; lia.
    + rewrite IH.
      * rewrite parse_digit_step by apply mod10_lt.
        f_equal. symmetry. apply N.div_mod. discriminate.
      * rewrite Nat2N.inj_succ, N.pow_succ_r' in Hn.
        apply N.Div0.div_lt_upper_bound. lia.
Qed.

Lemma size_fuel (n : N) : (n < 10 * 2 ^ N.of_nat (N.to_nat (N.size n)))%N.
Proof.
  rewrite N2Nat.id. pose proof (N.size_gt n). lia.
Qed.

Lemma parse_zeros_str_N (k : nat) (n : N) (p : bool) :
  parse_digits p (repeat_char "0" k ++ str_N n) 0 = Some n.
Proof.
  revert p. induction k as [|k IH]; intros p.
  - simpl. unfold str_N. rewrite parse_str_digits by apply size_fuel.
    reflexivity.
  - simpl repeat_char. simpl append.
    change "0"%char with (digit_char 0).
    rewrite parse_digit_step by reflexivity. apply IH.
Qed.

Lemma zeros_str_N_head (k : nat) (n : N) :
  exists c r, repeat_char "0" k ++ str_N n = String c r /\ is_digit c = true.
Proof.
  destruct k as [|k].
  - simpl. apply str_digits_head.
  - simpl. eexists _, _. split; reflexivity.
Qed.

Lemma zeros_str_N_digits (k : nat) (n : N) :
  all_chars is_digit (repeat_char "0" k ++ str_N n) = true.
Proof.
  rewrite all_chars_app, all_chars_repeat by reflexivity.
  now apply str_digits_all_digits.
Qed.

Lemma zfill_unsigned (w : nat) (s : string) :
  (exists c r, s = String c r /\ is_digit c = true) ->
  zfill w s = repeat_char "0" (w - length s) ++ s.
Proof.
  intros (c & r & -> & Hc). unfold zfill.
  destruct (Nat.leb_spec w (length (String c r))) as [Hle | Hlt].
  - replace (w - length (String c r))%nat with 0%nat by lia. reflexivity.
  - destruct (is_digit_not_sign c Hc) as [-> ->]. reflexivity.
Qed.

Lemma zfill_negative (w : nat) (r : string) :
  zfill w (String "-" r)
  = String "-" (repeat_char "0" (w - S (length r)) ++ r).
Proof.
  unfold zfill.
  destruct (Nat.leb_spec w (length (String "-" r))) as [Hle | Hlt].
  - simpl in Hle. replace (w - S (length r))%nat with 0%nat by lia.
    reflexivity.
  - reflexivity.
Qed.

(** The shape of [str(z).zfill(w)]: a sign, zeros, the digits of [|z|]. *)
Lemma zfill_py_str (w : nat) (z : Z) :
  exists k,
    zfill w (py_str z)
    = if z <? 0 then String "-" (repeat_char "0" k ++ str_N (Z.abs_N z))
      else repeat_char "0" k ++ str_N (Z.abs_N z).
Proof.
  unfold py_str. destruct (z <? 0).
  - eexists. apply zfill_negative.
  - eexists. apply zfill_unsigned. apply str_digits_head.
Qed.

Lemma py_int_signed_digits (k : nat) (z : Z) :
  py_int (if z <? 0 then String "-" (repeat_char "0" k ++ str_N (Z.abs_N z))
          else repeat_char "0" k ++ str_N (Z.abs_N z)) = Ok z.
Proof.
  pose proof (zeros_str_N_digits k (Z.abs_N z)) as Hdig.
  assert (all_chars (fun c => negb (is_space c))
            (repeat_char "0" k ++ str_N (Z.abs_N z)) = true) as Hsp.
  { revert Hdig. apply all_chars_weaken, is_digit_not_space. }
  unfold py_int. destruct (Z.ltb_spec z 0) as [Hneg | Hpos].
  - rewrite strip_no_space by (simpl; now rewrite Hsp).
    simpl. rewrite parse_zeros_str_N. f_equal. lia.
  - rewrite strip_no_space by exact Hsp.
    destruct (zeros_str_N_head k (Z.abs_N z)) as (c & r & Heq & Hc).
    pose proof (parse_zeros_str_N k (Z.abs_N z) false) as Hparse.
    rewrite Heq in *.
    destruct (is_digit_not_sign c Hc) as [-> ->].
    rewrite Hparse. f_equal. lia.
Qed.

(** [int(str(z).zfill(w)) == z] *)
Lemma py_int_zfill_py_str (w : nat) (z : Z) :
  py_int (zfill w (py_str z)) = Ok z.
Proof.
  destruct (zfill_py_str w z) as [k ->]. apply py_int_signed_digits.
Qed.

Lemma str_digits_length_ge (fuel : nat) (n : N) (acc : string) :
  (S (length acc) <= length (str_digits fuel n acc))%nat.
Proof.
  revert n acc. induction fuel as [|f IH]; intros n acc; simpl.
  - lia.
  - destruct (n <? 10)%N; simpl; [lia |].
    specialize (IH (n / 10)%N (String (digit_char (n mod 10)) acc)).
    simpl in IH. lia.
Qed.

Lemma str_digits_length_le (fuel : nat) (n : N) (acc : string) (k : nat) :
  (n < 10 ^ N.of_nat (S k))%N ->
  (length (str_digits fuel n acc) <= S k + length acc)%nat.
Proof.
  revert n acc k. induction fuel as [|f IH]; intros n acc k Hn; simpl.
  - lia.
  - destruct (N.ltb_spec n 10) as [Hlt | Hge]; simpl; [lia |].
    destruct k as [|k]; [simpl in Hn; lia |].
    rewrite Nat2N.inj_succ, N.pow_succ_r' in Hn.
    assert (n / 10 < 10 ^ N.of_nat (S k))%N as Hdiv
      by (apply N.Div0.div_lt_upper_bound; lia).
    specialize (IH _ (String (digit_char (n mod 10)) acc) _ Hdiv).
    simpl in IH. lia.
Qed.

(** A number below [10^k] is written with at most [k] digits. *)
Lemma str_N_length (n : N) (k : nat) :
  (n < 10 ^ N.of_nat (S k))%N ->
  (1 <= length (str_N n) <= S k)%nat.
Proof.
  intros Hn. unfold str_N. split.
  - pose proof (str_digits_length_ge (N.to_nat (N.size n)) n ""). simpl in *. lia.
  - pose proof (str_digits_length_le (N.to_nat (N.size n)) n "" k Hn).
    simpl in *. lia.
Qed.

Lemma zfill_py_str_length (z : Z) :
  (6 <= length (zfill 6 (py_str z)))%nat
  /\ (-99999 <= z <= 999999 -> length (zfill 6 (py_str z)) = 6%nat).
Proof.
  rewrite zfill_length. split; [lia |]. intros Hz.
  unfold py_str. destruct (Z.ltb_spec z 0) as [Hneg | Hpos]; cbn [length].
  - assert (Z.abs_N z < 10 ^ N.of_nat 5)%N as Hn
      by (change (10 ^ N.of_nat 5)%N with 100000%N; lia).
    pose proof (str_N_length _ 4 Hn). lia.
  - assert (Z.abs_N z < 10 ^ N.of_nat 6)%N as Hn
      by (change (10 ^ N.of_nat 6)%N with 1000000%N; lia).
    pose proof (str_N_length _ 5 Hn). lia.
Qed.

End Decimal.

(** ** The expansion loops *)

Section Expansion.

Import DATFileParser.

(** The book the inner loop appends in its [i]-th iteration. *)
Let later_book (order : OrderRecord) (increment start : Z) (i : nat) : Book.t :=
  _order_to_dict order (zfill 6 (py_str (start + Z.of_nat i * increment))).

Lemma additional_books_spec (order : OrderRecord) (increment : Z)
    (count : nat) (start : Z) (expanded : list Book.t) :
  additional_books order increment count start expanded
  = (expanded ++ map (later_book order increment start) (seq 1 count))%list.
Proof.
  revert start expanded.
  induction count as [|count IH]; intros start expanded.
  - simpl. now rewrite app_nil_r.
  - cbn [additional_books]. rewrite IH, <- app_assoc. f_equal.
    cbn [seq map app]. f_equal.
    + unfold later_book. do 3 f_equal. lia.
    + rewrite <- (seq_shift count 1), map_map. apply map_ext. intros i.
      unfold later_book. do 3 f_equal. lia.
Qed.

Lemma order_books_spec (order : OrderRecord) (start : Z) :
  order_books order start
  = _order_to_dict order (cheque_start_serial order)
    :: map (later_book order
              (dict_get SERIAL_INCREMENTS (book_style order) 50) start)
           (seq 1 (range_len 1 (number_of_books order))).
Proof. unfold order_books. now rewrite additional_books_spec. Qed.

Lemma order_books_length (order : OrderRecord) (start : Z) :
  List.length (order_books order start)
  = Z.to_nat (Z.max (number_of_books order) 1).
Proof.
  rewrite order_books_spec. cbn [List.length].
  rewrite length_map, length_seq. unfold range_len. lia.
Qed.

Lemma order_books_nth (order : OrderRecord) (start : Z) (k : nat)
    (book : Book.t) :
  nth_error (order_books order start) k = Some book ->
  match k with
  | O => book = _order_to_dict order (cheque_start_serial order)
  | S _ =>
      book = _order_to_dict order
               (zfill 6 (py_str
                  (start + Z.of_nat k
                           * dict_get SERIAL_INCREMENTS (book_style order) 50)))
  end.
Proof.
  rewrite order_books_spec. destruct k as [|k]; cbn [nth_error].
  - now intros [= <-].
  - intros H.
    assert (k < range_len 1 (number_of_books order))%nat as Hk.
    { assert (nth_error
                (map (later_book order
                        (dict_get SERIAL_INCREMENTS (book_style order) 50)
                        start)
                     (seq 1 (range_len 1 (number_of_books order)))) k
              <> None) as Hlt by (rewrite H; discriminate).
      apply nth_error_Some in Hlt.
      now rewrite length_map, length_seq in Hlt. }
    rewrite nth_error_map, nth_error_seq in H.
    destruct (Nat.ltb_spec k (range_len 1 (number_of_books order)));
      [| lia].
    cbn in H. now injection H as <-.
Qed.

Lemma additional_books_app (order : OrderRecord) (increment : Z)
    (count : nat) (start : Z) (before expanded : list Book.t) :
  additional_books order increment count start (before ++ expanded)%list
  = (before ++ additional_books order increment count start expanded)%list.
Proof. now rewrite !additional_books_spec, app_assoc. Qed.

(** The books already in [expanded] stay in front, untouched. *)
Lemma expand_loop_acc (todo : list OrderRecord) (expanded : list Book.t) :
  expand_loop todo expanded
  = (books <- expand_loop todo [] ;; Ok (expanded ++ books)%list).
Proof.
  revert expanded. induction todo as [|order rest IH]; intros expanded.
  - simpl. now rewrite app_nil_r.
  - cbn [expand_loop].
    destruct (py_int (cheque_start_serial order)) as [start | e];
      cbn [bind]; [| reflexivity].
    rewrite additional_books_app, IH.
    rewrite (IH (additional_books _ _ _ _ _)).
    destruct (expand_loop rest []) as [books | e]; cbn [bind];
      [| reflexivity].
    now rewrite app_assoc.
Qed.

Lemma expand_loop_cons (order : OrderRecord) (rest : list OrderRecord) :
  expand_loop (order :: rest) []
  = (start <- py_int (cheque_start_serial order) ;;
     books <- expand_loop rest [] ;;
     Ok (order_books order start ++ books)%list).
Proof.
  cbn [expand_loop].
  destruct (py_int (cheque_start_serial order)) as [start | e];
    cbn [bind]; [| reflexivity].
  now rewrite expand_loop_acc.
Qed.

Lemma expand_loop_single (order : OrderRecord) :
  expand_loop [order] []
  = (start <- py_int (cheque_start_serial order) ;;
     Ok (order_books order start)).
Proof.
  rewrite expand_loop_cons.
  destruct (py_int (cheque_start_serial order)); cbn; [| reflexivity].
  now rewrite app_nil_r.
Qed.

Lemma py_int_raises_ValueError (s : string) (e : exn) :
  py_int s = Raise e -> e = ValueError.
Proof.
  unfold py_int. destruct (strip s) as [|c r]; [now intros [= <-] |].
  destruct (Ascii.eqb c "-"); [| destruct (Ascii.eqb c "+")];
    destruct (parse_digits _ _ _); try discriminate; now intros [= <-].
Qed.

Lemma expand_loop_raises (todo : list OrderRecord) (e : exn) :
  expand_loop todo [] = Raise e -> e = ValueError.
Proof.
  induction todo as [|order rest IH]; [discriminate |].
  rewrite expand_loop_cons.
  destruct (py_int (cheque_start_serial order)) as [start | e'] eqn:Hint;
    cbn [bind].
  - destruct (expand_loop rest []) as [books | e'']; cbn [bind];
      [discriminate |].
    intros [= <-]. now apply IH.
  - intros [= <-]. now apply py_int_raises_ValueError in Hint.
Qed.

(** One order whose serial does not read as an integer makes the whole
    loop raise. *)
Lemma expand_loop_bad_serial (todo : list OrderRecord) (order : OrderRecord) :
  In order todo ->
  (forall start, py_int (cheque_start_serial order) <> Ok start) ->
  expand_loop todo [] = Raise ValueError.
Proof.
  intros Hin Hbad. induction todo as [|o rest IH]; [contradiction |].
  rewrite expand_loop_cons.
  destruct (py_int (cheque_start_serial o)) as [start | e] eqn:Hint;
    cbn [bind].
  - destruct Hin as [-> | Hin]; [now elim (Hbad start) |].
    now rewrite (IH Hin).
  - now apply py_int_raises_ValueError in Hint as ->.
Qed.

(** When every serial reads as an integer the loop returns the books of
    the orders, order after order. *)
Lemma expand_loop_all_parse (todo : list OrderRecord) :
  (forall order, In order todo ->
     exists start, py_int (cheque_start_serial order) = Ok start) ->
  exists per_order,
    Forall2 (fun order books =>
               exists start,
                 py_int (cheque_start_serial order) = Ok start
                 /\ books = order_books order start)
            todo per_order
    /\ expand_loop todo [] = Ok (List.concat per_order).
Proof.
  induction todo as [|order rest IH]; intros Hall.
  - exists []. split; [constructor | reflexivity].
  - destruct IH as (per_rest & Hrest & Heq).
    { intros o Ho. apply Hall. now right. }
    destruct (Hall order (or_introl eq_refl)) as [start Hstart].
    exists (order_books order start :: per_rest). split.
    + constructor; [| exact Hrest]. now exists start.
    + rewrite expand_loop_cons, Hstart, Heq. reflexivity.
Qed.

(** A successful run read every serial. *)
Lemma expand_loop_ok_parses (todo : list OrderRecord) (books : list Book.t) :
  expand_loop todo [] = Ok books ->
  forall order, In order todo ->
    exists start, py_int (cheque_start_serial order) = Ok start.
Proof.
  intros Hok order Hin.
  destruct (py_int (cheque_start_serial order)) as [start | e] eqn:Hint;
    [now exists start |].
  rewrite (expand_loop_bad_serial todo order Hin) in Hok; [discriminate |].
  intros start. now rewrite Hint.
Qed.

End Expansion.

(** ** Decoding *)

Section Decoding.

Import DATFileParser.

Lemma all_chars_substring (p : ascii -> bool) (n m : nat) (s : string) :
  all_chars p s = true -> all_chars p (substring n m s) = true.
Proof.
  revert n m. induction s as [|c s IH]; intros n m Hs.
  - now destruct n, m.
  - cbn [all_chars] in Hs. apply andb_prop in Hs as [Hc Hs].
    destruct n as [|n].
    + destruct m as [|m]; [reflexivity |].
      cbn [substring all_chars]. now rewrite Hc, IH.
    + cbn [substring]. now apply IH.
Qed.

Lemma substring_app_skip (n m : nat) (s t : string) :
  (length s <= n)%nat ->
  substring n m (s ++ t) = substring (n - length s) m t.
Proof.
  revert n. induction s as [|c s IH]; intros n Hn.
  - simpl. now rewrite Nat.sub_0_r.
  - destruct n as [|n]; [simpl in Hn; lia |].
    cbn [append substring length]. apply IH. simpl in Hn. lia.
Qed.

Lemma lstrip_all_space (s : string) :
  all_chars is_space s = true -> lstrip s = "".
Proof.
  induction s as [|c s IH]; [reflexivity |].
  cbn [all_chars lstrip]. intros [-> Hs]%andb_prop. now apply IH.
Qed.

Lemma strip_all_space (s : string) :
  all_chars is_space s = true -> strip s = "".
Proof. intros H. unfold strip. now rewrite lstrip_all_space. Qed.

(** A column range that starts at or after the end of the line holds
    only padding, and strips to the empty string. *)
Lemma blank_beyond_line (line : string) (a b : nat) :
  (length line <= a)%nat ->
  strip (slice (ljust 210 line) a b) = "".
Proof.
  intros Ha. unfold slice, ljust. rewrite substring_app_skip by exact Ha.
  apply strip_all_space, all_chars_substring, all_chars_repeat.
  reflexivity.
Qed.

Lemma ljust_length (w : nat) (s : string) :
  (length s < w)%nat -> length (ljust w s) = w.
Proof.
  intros H. unfold ljust. rewrite string_length_app, length_repeat_char. lia.
Qed.

(** The decoder, with the padding step and the [try] block taken apart. *)
Lemma _parse_order_record_unfold (line : string) :
  let padded := if (length line <? 210)%nat then ljust 210 line else line in
  let num_books_str := strip (slice padded 26 30) in
  match (match num_books_str with "" => Ok 1 | _ => py_int num_books_str end) with
  | Ok num_books =>
      exists order,
        _parse_order_record line = Ok (Some order)
        /\ number_of_books order = num_books
        /\ Forall (fun '(a, b, field) => field order = strip (slice padded a b))
                  string_fields
  | Raise _ => _parse_order_record line = Ok None
  end.
Proof.
  intros padded num_books_str. unfold _parse_order_record.
  fold padded. fold num_books_str.
  destruct (match num_books_str with "" => Ok 1 | _ => py_int num_books_str end)
    as [num_books | e] eqn:Hnum; cbn [bind].
  - eexists. split; [reflexivity |]. split; [reflexivity |].
    repeat constructor.
  - assert (e = ValueError) as ->; [| reflexivity].
    destruct num_books_str; [discriminate |].
    now apply py_int_raises_ValueError in Hnum.
Qed.

(** No exception leaves the decoder. *)
Lemma _parse_order_record_returns (line : string) :
  exists r, _parse_order_record line = Ok r.
Proof.
  pose proof (_parse_order_record_unfold line) as H. cbv zeta in H.
  destruct (match strip _ with "" => Ok 1 | _ => _ end).
  - destruct H as (order & -> & _). now eexists.
  - rewrite H. now eexists.
Qed.

Lemma get_in_range (n : nat) (s : string) :
  (n < length s)%nat -> exists c, get n s = Some c.
Proof.
  revert n. induction s as [|c s IH]; intros n Hn; [simpl in Hn; lia |].
  destruct n as [|n]; [now exists c |].
  cbn [get]. apply IH. simpl in Hn. lia.
Qed.

(** The line loop of [parse_file] never raises. *)
Lemma parse_lines_returns (lines : list string) (self : Parser) :
  snd (parse_lines lines self) = Ok tt.
Proof.
  revert self. induction lines as [|line rest IH]; intros self;
    [reflexivity |].
  cbn [parse_lines]. destruct (strip line); [apply IH |].
  destruct (Nat.leb_spec 3 (length line)) as [Hlen | Hlen]; [| apply IH].
  destruct (get_in_range 2 line) as [c ->]; [lia |].
  destruct (Ascii.eqb c "1"); [| apply IH].
  destruct (_parse_order_record_returns line) as [[order |] ->]; apply IH.
Qed.

End Decoding.

(** ** The record decoder *)

Section DecoderClaims.

Import DATFileParser.

(** C9.  A line shorter than 210 characters is decoded without an
    exception and exactly as the 210-character line obtained by adding
    blanks on its right: the count defaults to 1 when its columns lie
    beyond the line, every string field whose columns lie beyond the line
    is empty, and the line is dropped only when its count columns hold
    something that is not an integer. *)
Theorem short_line_decoded_as_padded (line : string) :
  (length line < 210)%nat ->
  let padded := line ++ repeat_char " " (210 - length line) in
  length padded = 210%nat
  /\ (exists r, _parse_order_record line = Ok r)
  /\ _parse_order_record line = _parse_order_record padded
  /\ (forall order,
        _parse_order_record line = Ok (Some order) ->
        ((length line <= 26)%nat -> number_of_books order = 1)
        /\ Forall (fun '(a, b, field) =>
                     (length line <= a)%nat -> field order = "")
                  string_fields)
  /\ (_parse_order_record line = Ok None ->
        strip (slice padded 26 30) <> ""
        /\ forall n, py_int (strip (slice padded 26 30)) <> Ok n).
Proof.
  intros Hshort padded.
  assert (length padded = 210%nat) as Hlen
    by (apply (ljust_length 210 line Hshort)).
  assert (padded = ljust 210 line) as Hpad by reflexivity.
  pose proof (_parse_order_record_unfold line) as Hline. cbv zeta in Hline.
  destruct (Nat.ltb_spec (length line) 210) as [_ | Hge]; [| lia].
  rewrite <- Hpad in Hline.
  split; [exact Hlen |].
  split; [apply _parse_order_record_returns |].
  split.
  { unfold _parse_order_record. rewrite Hlen.
    destruct (Nat.ltb_spec (length line) 210) as [_ | Hge]; [| lia].
    rewrite <- Hpad. reflexivity. }
  split.
  - intros order Hdec.
    destruct (strip (slice padded 26 30)) as [|c r] eqn:Hcount.
    + destruct Hline as (order' & Hdec' & Hnum & Hfields).
      rewrite Hdec in Hdec'. injection Hdec' as <-.
      split; [now intros _ |].
      revert Hfields. apply Forall_impl. intros [[lo hi] field] Hfield Hlo.
      rewrite Hfield, Hpad. now apply blank_beyond_line.
    + split.
      * intros Hle. rewrite Hpad, blank_beyond_line in Hcount by exact Hle.
        discriminate.
      * destruct (py_int (String c r)).
        -- destruct Hline as (order' & Hdec' & Hnum & Hfields).
           rewrite Hdec in Hdec'. injection Hdec' as <-.
           revert Hfields. apply Forall_impl. intros [[lo hi] field] Hfield Hlo.
           rewrite Hfield, Hpad. now apply blank_beyond_line.
        -- rewrite Hdec in Hline. discriminate.
  - intros Hnone.
    destruct (strip (slice padded 26 30)) as [|c r] eqn:Hcount.
    + destruct Hline as (order' & Hdec' & _). rewrite Hnone in Hdec'.
      discriminate.
    + split; [discriminate |]. intros n Hn. rewrite Hn in Hline.
      destruct Hline as (order' & Hdec' & _). rewrite Hnone in Hdec'.
      discriminate.
Qed.

Lemma short_line_decoded_as_padded_witness :
  (length "011" < 210)%nat
  /\ length ("011" ++ repeat_char " " (210 - length "011")) = 210%nat
  /\ (exists r, _parse_order_record "011" = Ok r)
  /\ _parse_order_record "011"
     = _parse_order_record ("011" ++ repeat_char " " (210 - length "011")).
Proof.
  assert (length "011" < 210)%nat as H by (simpl; lia).
  destruct (short_line_decoded_as_padded "011" H) as (H1 & H2 & H3 & _).
  repeat split; assumption.
Defined.

End DecoderClaims.

(** ** Width of a zero-filled serial *)

Section SerialWidth.

Lemma str_digits_length_lower (fuel : nat) (n : N) (acc : string) (k : nat) :
  (n < 10 * 2 ^ N.of_nat fuel)%N ->
  (10 ^ N.of_nat k <= n)%N ->
  (S k + length acc <= length (str_digits fuel n acc))%nat.
Proof.
  revert n acc k. induction fuel as [|f IH]; intros n acc k Hfuel Hk.
  - assert (n < 10)%N as Hlt by (simpl in Hfuel; lia).
    destruct k as [|k]; [simpl; lia |].
    rewrite Nat2N.inj_succ, N.pow_succ_r' in Hk.
    pose proof (N.pow_nonzero 10 (N.of_nat k)). lia.
  - cbn [str_digits]. destruct (N.ltb_spec n 10) as [Hlt | Hge].
    + destruct k as [|k]; [simpl; lia |].
      rewrite Nat2N.inj_succ, N.pow_succ_r' in Hk.
      pose proof (N.pow_nonzero 10 (N.of_nat k)). lia.
    + destruct k as [|k].
      * pose proof (str_digits_length_ge f (n / 10)
                      (String (digit_char (n mod 10)) acc)) as Hge'.
        simpl in Hge'. lia.
      * rewrite Nat2N.inj_succ, N.pow_succ_r' in Hk.
        rewrite Nat2N.inj_succ, N.pow_succ_r' in Hfuel.
        assert (n / 10 < 10 * 2 ^ N.of_nat f)%N as Hfuel'
          by (apply N.Div0.div_lt_upper_bound; lia).
        assert (10 ^ N.of_nat k <= n / 10)%N as Hk'
          by (apply N.div_le_lower_bound; [discriminate | lia]).
        specialize (IH _ (String (digit_char (n mod 10)) acc) _ Hfuel' Hk').
        simpl in IH. lia.
Qed.

Lemma str_N_length_lower (n : N) (k : nat) :
  (10 ^ N.of_nat k <= n)%N -> (S k <= length (str_N n))%nat.
Proof.
  intros Hk. unfold str_N.
  pose proof (str_digits_length_lower _ n "" k (size_fuel n) Hk) as H.
  simpl in H. lia.
Qed.

(** [str(z).zfill(6)] has six characters exactly for the integers of at
    most six digits, or five digits and a minus sign. *)
Lemma zfill_py_str_width (z : Z) :
  length (zfill 6 (py_str z)) = 6%nat <-> -99999 <= z <= 999999.
Proof.
  split; [| apply zfill_py_str_length].
  rewrite zfill_length. unfold py_str.
  destruct (Z.ltb_spec z 0) as [Hneg | Hpos]; cbn [length]; intros Hlen.
  - destruct (Z.le_gt_cases (-99999) z) as [Hle | Hgt]; [lia |].
    assert (10 ^ N.of_nat 5 <= Z.abs_N z)%N as Hn
      by (change (10 ^ N.of_nat 5)%N with 100000%N; lia).
    pose proof (str_N_length_lower _ _ Hn). lia.
  - destruct (Z.le_gt_cases z 999999) as [Hle | Hgt]; [lia |].
    assert (10 ^ N.of_nat 6 <= Z.abs_N z)%N as Hn
      by (change (10 ^ N.of_nat 6)%N with 1000000%N; lia).
    pose proof (str_N_length_lower _ _ Hn). lia.
Qed.

End SerialWidth.

(** ** The order expander *)

Section ExpanderClaims.

Import DATFileParser Samples.

Lemma expand_loop_length (todo : list OrderRecord) (books : list Book.t) :
  expand_loop todo [] = Ok books ->
  Z.of_nat (List.length books)
  = fold_right Z.add 0
      (map (fun order => Z.max (number_of_books order) 1) todo).
Proof.
  revert books. induction todo as [|order rest IH]; intros books.
  - now intros [= <-].
  - rewrite expand_loop_cons.
    destruct (py_int (cheque_start_serial order)) as [start | e];
      cbn [bind]; [| discriminate].
    destruct (expand_loop rest []) as [books' | e]; cbn [bind];
      [| discriminate].
    intros [= <-]. rewrite List.length_app, order_books_length.
    cbn [map fold_right]. rewrite <- (IH books' eq_refl). lia.
Qed.

Lemma sum_number_of_books_spec (todo : list OrderRecord) :
  sum_number_of_books todo = fold_right Z.add 0 (map number_of_books todo).
Proof.
  unfold sum_number_of_books.
  assert (forall acc,
            fold_left (fun acc order => acc + number_of_books order) todo acc
            = acc + fold_right Z.add 0 (map number_of_books todo)) as H.
  { induction todo as [|order rest IH]; intros acc; cbn; [lia |].
    rewrite IH. lia. }
  now rewrite H.
Qed.

(** C1, as the code has it.  When the start serial of some order does
    not read as an integer, the expansion of the whole order list raises
    [ValueError]: it returns no book at all, and [parse_file] raises
    with it. *)
Theorem serial_error_aborts_expansion (self : Parser) :
  (exists order,
     In order (orders self)
     /\ forall start, py_int (cheque_start_serial order) <> Ok start) ->
  _expand_orders_with_books self = Raise ValueError
  /\ forall now self0 file_path readlines,
       fst (parse_file now self0 file_path readlines) = self ->
       snd (parse_file now self0 file_path readlines) = Raise ValueError.
Proof.
  intros (order & Hin & Hbad).
  assert (_expand_orders_with_books self = Raise ValueError) as Hexp
    by (apply (expand_loop_bad_serial _ order Hin Hbad)).
  split; [exact Hexp |].
  intros now self0 file_path readlines. unfold parse_file.
  destruct (extract_order_number_from_filename now self0 file_path)
    as [self1 number].
  pose proof (parse_lines_returns
                (map (rstrip_chars is_newline) readlines)
                (set_extracted_order_number self1 number)) as Hlines.
  destruct (parse_lines _ _) as [self2 r]. cbn [snd] in Hlines. subst r.
  destruct (_expand_orders_with_books self2) as [books | e] eqn:Hself2;
    cbn [fst snd]; intros ->; congruence.
Qed.

Lemma serial_error_aborts_expansion_witness :
  _expand_orders_with_books (parser_with [bad_order; good_order])
  = Raise ValueError.
Proof.
  apply (serial_error_aborts_expansion (parser_with [bad_order; good_order])).
  exists bad_order. split; [simpl; auto |].
  intros start. vm_compute. discriminate.
Defined.

(** C1 as stated fails: after an order with the start serial [ABC] the
    books of the next order are not returned. *)
Lemma serial_error_not_skipped :
  (forall start, py_int (cheque_start_serial bad_order) <> Ok start)
  /\ (exists books,
        _expand_orders_with_books (parser_with [good_order]) = Ok books
        /\ _expand_orders_with_books (parser_with [bad_order; good_order])
           <> Ok books)
  /\ ~ (exists books,
          _expand_orders_with_books (parser_with [bad_order; good_order])
          = Ok books).
Proof.
  split; [intros start; vm_compute; discriminate |].
  split.
  - eexists. split; [vm_compute; reflexivity | vm_compute; discriminate].
  - intros [books H]. vm_compute in H. discriminate.
Qed.

(** C3, as the code has it.  When the expansion succeeds, the number of
    expanded books is the sum of [max(numberOfBooks, 1)] over the orders;
    it equals [total_books] of the metadata when every order declares at
    least one book. *)
Theorem total_books_matches_expansion (now : datetime) (self : Parser)
    (books : list Book.t) :
  _expand_orders_with_books self = Ok books ->
  Z.of_nat (List.length books)
  = fold_right Z.add 0
      (map (fun order => Z.max (number_of_books order) 1) (orders self))
  /\ ((forall order, In order (orders self) -> 1 <= number_of_books order) ->
      Metadata.total_books (get_file_metadata now self)
      = Z.of_nat (List.length books)).
Proof.
  intros Hexp. apply expand_loop_length in Hexp as Hlen.
  split; [exact Hlen |].
  intros Hpos. cbn [get_file_metadata Metadata.total_books].
  rewrite Hlen, sum_number_of_books_spec. clear Hlen Hexp.
  induction (orders self) as [|order rest IH]; [reflexivity |].
  cbn [map fold_right]. rewrite IH.
  - pose proof (Hpos order (or_introl eq_refl)). lia.
  - intros o Ho. apply Hpos. now right.
Qed.

Lemma total_books_matches_expansion_witness :
  Metadata.total_books (get_file_metadata now0 (parser_with [good_order]))
  = 2.
Proof.
  assert (_expand_orders_with_books (parser_with [good_order])
          = Ok (order_books good_order 1)) as H by reflexivity.
  destruct (total_books_matches_expansion now0 _ _ H) as [_ Htotal].
  rewrite Htotal; [reflexivity |].
  intros order [<- | []]. simpl. lia.
Defined.

(** C3 as stated fails: the line with the count columns [0000] decodes to
    an order that declares no book and expands to one. *)
Lemma total_books_zero_count :
  let line := order_line "02" "0000" "000100" "00001" in
  let '(self, parsed) := parse_file now0 __init__ "KCB-618.dat" [line] in
  orders self = [zero_order]
  /\ (exists book,
        parsed = Ok {| Parsed.orders := [zero_order];
                       Parsed.expanded_orders := [book];
                       Parsed.extracted_order_number := "000618" |})
  /\ Metadata.total_books (get_file_metadata now0 self) = 0.
Proof. vm_compute. repeat split. eexists. reflexivity. Qed.

End ExpanderClaims.

Section ExpansionShape.

Import DATFileParser Samples.

(** C4.  When every start serial reads as an integer, the expansion of an
    order list is the concatenation, in the order of the list, of the
    expansions of its orders taken alone, and the expansion of one order
    has [max(numberOfBooks, 1)] books. *)
Theorem expansion_count_and_order (self : Parser) :
  (forall order, In order (orders self) ->
     exists start, py_int (cheque_start_serial order) = Ok start) ->
  exists per_order : list (list Book.t),
    _expand_orders_with_books self = Ok (List.concat per_order)
    /\ Forall2
         (fun order books =>
            List.length books = Z.to_nat (Z.max (number_of_books order) 1)
            /\ forall single,
                 orders single = [order] ->
                 _expand_orders_with_books single = Ok books)
         (orders self) per_order.
Proof.
  intros Hall.
  destruct (expand_loop_all_parse (orders self) Hall)
    as (per_order & Hper & Heq).
  exists per_order. split; [exact Heq |].
  revert Hper. apply Forall2_impl.
  intros order books (start & Hstart & ->). split.
  - apply order_books_length.
  - intros single Hsingle. unfold _expand_orders_with_books.
    now rewrite Hsingle, expand_loop_single, Hstart.
Qed.

Lemma expansion_count_and_order_witness :
  exists per_order : list (list Book.t),
    _expand_orders_with_books (parser_with [zero_order; good_order])
    = Ok (List.concat per_order)
    /\ Forall2
         (fun order books =>
            List.length books = Z.to_nat (Z.max (number_of_books order) 1)
            /\ forall single,
                 orders single = [order] ->
                 _expand_orders_with_books single = Ok books)
         [zero_order; good_order] per_order.
Proof.
  apply (expansion_count_and_order (parser_with [zero_order; good_order])).
  intros order [<- | [<- | []]]; eexists; vm_compute; reflexivity.
Defined.

(** C5.  For an order of at least one book whose start serial reads as
    the integer [start], the [k]-th expanded book (counting from 0) has a
    serial that reads as [start + k * increment], where [increment] is
    the entry of the style in [SERIAL_INCREMENTS], or 50 without one; the
    first book carries the start serial of the order unchanged, and every
    book equals the first one once given its serial. *)
Theorem serials_arithmetic_sequence (self : Parser) (order : OrderRecord)
    (start : Z) :
  orders self = [order] ->
  1 <= number_of_books order ->
  py_int (cheque_start_serial order) = Ok start ->
  let increment :=
    match dict_lookup SERIAL_INCREMENTS (book_style order) with
    | Some i => i
    | None => 50
    end in
  exists first books,
    _expand_orders_with_books self = Ok (first :: books)
    /\ List.length (first :: books) = Z.to_nat (number_of_books order)
    /\ Book.serial_number first = cheque_start_serial order
    /\ forall k book,
         nth_error (first :: books) k = Some book ->
         py_int (Book.serial_number book) = Ok (start + Z.of_nat k * increment)
         /\ Book.with_serial book (Book.serial_number first) = first.
Proof.
  intros Hself Hcount Hstart increment.
  pose proof (order_books_spec order start) as Hspec.
  pose proof (order_books_length order start) as Hlen.
  pose proof (order_books_nth order start) as Hnth.
  rewrite Hspec in Hlen, Hnth.
  eexists _, _. split.
  { unfold _expand_orders_with_books.
    rewrite Hself, expand_loop_single, Hstart. cbn [bind].
    now rewrite Hspec. }
  split; [rewrite Hlen; lia |].
  split; [reflexivity |].
  intros k book Hk. specialize (Hnth k book Hk).
  destruct k as [|k]; cbv beta iota in Hnth; subst book.
  - split; [| reflexivity].
    cbn [_order_to_dict Book.serial_number]. rewrite Hstart. f_equal. lia.
  - split; [| reflexivity].
    cbn [_order_to_dict Book.serial_number].
    now rewrite py_int_zfill_py_str.
Qed.

Lemma serials_arithmetic_sequence_witness :
  exists first books,
    _expand_orders_with_books (parser_with [good_order])
    = Ok (first :: books)
    /\ List.length (first :: books) = 2%nat
    /\ Book.serial_number first = "000001"
    /\ forall k book,
         nth_error (first :: books) k = Some book ->
         py_int (Book.serial_number book) = Ok (1 + Z.of_nat k * 50)
         /\ Book.with_serial book (Book.serial_number first) = first.
Proof.
  apply (serials_arithmetic_sequence (parser_with [good_order]) good_order 1).
  - reflexivity.
  - simpl. lia.
  - reflexivity.
Defined.

(** C7, as the code has it.  The first book of an order carries the
    start serial of the order unchanged, whatever its length; the serial
    of every later book is its integer value written in decimal and
    zero-filled to six characters, which has at least six characters, and
    exactly six if and only if the value lies between -99999 and
    999999. *)
Theorem serial_number_width (self : Parser) (order : OrderRecord)
    (start : Z) :
  orders self = [order] ->
  py_int (cheque_start_serial order) = Ok start ->
  exists first books,
    _expand_orders_with_books self = Ok (first :: books)
    /\ Book.serial_number first = cheque_start_serial order
    /\ forall k book,
         nth_error books k = Some book ->
         let value :=
           start + Z.of_nat (S k)
                   * dict_get SERIAL_INCREMENTS (book_style order) 50 in
         Book.serial_number book = zfill 6 (py_str value)
         /\ (6 <= length (Book.serial_number book))%nat
         /\ (length (Book.serial_number book) = 6%nat
             <-> -99999 <= value <= 999999).
Proof.
  intros Hself Hstart.
  pose proof (order_books_spec order start) as Hspec.
  pose proof (order_books_nth order start) as Hnth.
  rewrite Hspec in Hnth.
  eexists _, _. split.
  { unfold _expand_orders_with_books.
    rewrite Hself, expand_loop_single, Hstart. cbn [bind].
    now rewrite Hspec. }
  split; [reflexivity |].
  intros k book Hk value. specialize (Hnth (S k) book Hk).
  cbv beta iota in Hnth. subst book.
  cbn [_order_to_dict Book.serial_number]. fold value.
  split; [reflexivity |].
  split; [apply zfill_py_str_length | apply zfill_py_str_width].
Qed.

Lemma serial_number_width_witness :
  exists first books,
    _expand_orders_with_books (parser_with [good_order])
    = Ok (first :: books)
    /\ Book.serial_number first = "000001"
    /\ forall k book,
         nth_error books k = Some book ->
         let value := 1 + Z.of_nat (S k) * 50 in
         Book.serial_number book = zfill 6 (py_str value)
         /\ (6 <= length (Book.serial_number book))%nat
         /\ (length (Book.serial_number book) = 6%nat
             <-> -99999 <= value <= 999999).
Proof.
  apply (serial_number_width (parser_with [good_order]) good_order 1);
    reflexivity.
Defined.

(** C7 as stated fails: a start serial decoded as [1] is emitted with one
    character, and the book after serial 999999 has a serial of seven
    characters. *)
Lemma serial_number_not_six_characters :
  (exists book,
     _expand_orders_with_books (parser_with [short_serial_order])
     = Ok [book]
     /\ Book.serial_number book = "1"
     /\ length (Book.serial_number book) <> 6%nat)
  /\ (exists first book,
        _expand_orders_with_books (parser_with [overflow_order])
        = Ok [first; book]
        /\ Book.serial_number book = "1000049"
        /\ length (Book.serial_number book) <> 6%nat).
Proof.
  split.
  - eexists. split; [vm_compute; reflexivity |].
    split; [reflexivity | simpl; lia].
  - eexists _, _. split; [vm_compute; reflexivity |].
    split; [reflexivity | simpl; lia].
Qed.

End ExpansionShape.

(** ** The order number of a file *)

Section OrderNumber.

Import DATFileParser Samples.

Lemma take_digits_length (n : nat) (s : string) :
  (length (take_digits n s) <= n)%nat.
Proof.
  revert s. induction n as [|n IH]; intros s; [simpl; lia |].
  destruct s as [|c r]; cbn [take_digits]; [simpl; lia |].
  destruct (is_digit c); cbn [length]; [| lia].
  specialize (IH r). lia.
Qed.

(** What [re_search] finds is what the pattern matches at some suffix. *)
Lemma re_search_found (m : string -> option string) (s g : string) :
  re_search m s = Some g -> exists pre post, s = pre ++ post /\ m post = Some g.
Proof.
  induction s as [|c r IH]; cbn [re_search].
  - destruct (m "") eqn:Hm; [| discriminate].
    intros [= <-]. now exists "", "".
  - destruct (m (String c r)) eqn:Hm.
    + intros [= <-]. now exists "", (String c r).
    + intros H. destruct (IH H) as (pre & post & -> & Hpost).
      now exists (String c pre), post.
Qed.

Lemma search_digits_3_6_length (s g : string) :
  re_search match_digits_3_6 s = Some g -> (3 <= length g <= 6)%nat.
Proof.
  intros H. apply re_search_found in H as (pre & post & _ & Hm).
  unfold match_digits_3_6 in Hm. cbv zeta in Hm.
  destruct (Nat.leb_spec 3 (length (take_digits 6 post))) as [Hle | Hlt];
    [| discriminate].
  assert (take_digits 6 post = g) as <- by congruence.
  pose proof (take_digits_length 6 post). lia.
Qed.

Lemma two_digit_field (x : Z) :
  0 <= x <= 99 -> length (zfill 2 (py_str x)) = 2%nat.
Proof.
  intros Hx. rewrite zfill_length. unfold py_str.
  destruct (Z.ltb_spec x 0) as [Hneg | _]; [lia |].
  assert (Z.abs_N x < 10 ^ N.of_nat 2)%N as Hn
    by (change (10 ^ N.of_nat 2)%N with 100%N; lia).
  pose proof (str_N_length _ 1 Hn). lia.
Qed.

Lemma strftime_mdH_length (now : datetime) :
  valid_datetime now -> length (strftime_mdH now) = 6%nat.
Proof.
  intros (_ & Hm & Hd & Hh). unfold strftime_mdH.
  rewrite !string_length_app, !two_digit_field by lia. reflexivity.
Qed.

(** C6, as the code has it.  The order number is the digit run that
    follows the first [KCB-] (in any letter case) of the file name,
    zero-filled to six characters; without such a run, the first run of
    three to six digits, zero-filled; without one, the month, day and
    hour of the clock.  It has at least six characters, and exactly six
    unless the digit run after [KCB-] is longer: the zero-fill never
    cuts. *)
Theorem order_number_from_filename (now : datetime) (self : Parser)
    (file_path : string) :
  valid_datetime now ->
  let filename := basename file_path in
  let number := snd (extract_order_number_from_filename now self file_path) in
  (6 <= length number)%nat
  /\ match re_search match_kcb filename with
     | Some digits =>
         number = zfill 6 digits
         /\ length number = Nat.max 6 (length digits)
     | None =>
         length number = 6%nat
         /\ match re_search match_digits_3_6 filename with
            | Some digits => number = zfill 6 digits
            | None => number = strftime_mdH now
            end
     end
  /\ snd (extract_order_number_from_filename now self "KCB-618.dat")
     = "000618"
  /\ snd (extract_order_number_from_filename now self "Report_042.dat")
     = "000042"
  /\ snd (extract_order_number_from_filename now self "out/kcb-77_v2.dat")
     = "000077"
  /\ snd (extract_order_number_from_filename now self "b12_3456789.dat")
     = "345678".
Proof.
  intros Hnow filename number.
  assert (match re_search match_kcb filename with
          | Some digits =>
              number = zfill 6 digits
              /\ length number = Nat.max 6 (length digits)
          | None =>
              length number = 6%nat
              /\ match re_search match_digits_3_6 filename with
                 | Some digits => number = zfill 6 digits
                 | None => number = strftime_mdH now
                 end
          end) as Hcases.
  { unfold number, extract_order_number_from_filename. fold filename.
    destruct (re_search match_kcb filename) as [digits |]; cbn [snd].
    - split; [reflexivity | apply zfill_length].
    - destruct (re_search match_digits_3_6 filename) as [digits |] eqn:Hd;
        cbn [snd].
      + apply search_digits_3_6_length in Hd.
        rewrite zfill_length. split; [lia | reflexivity].
      + rewrite zfill_length, strftime_mdH_length by exact Hnow.
        split; [reflexivity |].
        unfold zfill. now rewrite strftime_mdH_length by exact Hnow. }
  split; [| split; [exact Hcases | repeat split]].
  destruct (re_search match_kcb filename) as [digits |].
  - destruct Hcases as [_ ->]. lia.
  - destruct Hcases as [-> _]. lia.
Qed.

Lemma order_number_from_filename_witness :
  valid_datetime now0
  /\ snd (extract_order_number_from_filename now0 __init__ "noop.dat")
     = "092907"
  /\ (6 <= length (snd (extract_order_number_from_filename
                          now0 __init__ "noop.dat")))%nat.
Proof.
  assert (valid_datetime now0) as Hnow by (unfold valid_datetime; simpl; lia).
  split; [exact Hnow |].
  split; [reflexivity |].
  apply (order_number_from_filename now0 __init__ "noop.dat" Hnow).
Defined.

(** C6 as stated fails: seven digits after [KCB-] give an order number
    of seven characters. *)
Lemma order_number_longer_than_six :
  snd (extract_order_number_from_filename now0 __init__ "KCB-1234567.dat")
  = "1234567"
  /\ length (snd (extract_order_number_from_filename
                    now0 __init__ "KCB-1234567.dat")) <> 6%nat.
Proof. split; [reflexivity | simpl; lia]. Qed.

End OrderNumber.

(** ** One parser for a whole batch *)

Section Batch.

Import DATFileParser PackingListOrchestrator Samples BatchSamples.

(** [parse_file] never empties [self.orders]: the orders it returns
    start with those the parser held before the call. *)
Lemma parse_lines_keeps_orders (lines : list string) (self : Parser) :
  exists new,
    orders (fst (parse_lines lines self)) = (orders self ++ new)%list.
Proof.
  revert self. induction lines as [|line rest IH]; intros self.
  - exists []. simpl. now rewrite app_nil_r.
  - cbn [parse_lines]. destruct (strip line); [apply IH |].
    destruct (3 <=? length line)%nat; [| apply IH].
    destruct (get 2 line) as [c |];
      [| exists []; simpl; now rewrite app_nil_r].
    destruct (Ascii.eqb c "1"); [| apply IH].
    destruct (_parse_order_record line) as [[order |] | e];
      [| apply IH | exists []; simpl; now rewrite app_nil_r].
    destruct (IH (orders_append self order)) as [new Hnew].
    exists (order :: new). rewrite Hnew. cbn [orders_append orders].
    now rewrite <- app_assoc.
Qed.

Lemma parse_file_keeps_orders (now : datetime) (self : Parser)
    (file_path : string) (readlines : list string) :
  exists new,
    orders (fst (parse_file now self file_path readlines))
    = (orders self ++ new)%list.
Proof.
  unfold parse_file.
  destruct (extract_order_number_from_filename now self file_path)
    as [self1 number] eqn:Hextract.
  assert (orders self1 = orders self) as Hsame.
  { unfold extract_order_number_from_filename in Hextract.
    destruct (re_search match_kcb _);
      [| destruct (re_search match_digits_3_6 _)];
      injection Hextract as <- _; reflexivity. }
  destruct (parse_lines_keeps_orders
              (map (rstrip_chars is_newline) readlines)
              (set_extracted_order_number self1 number)) as [new Hnew].
  exists new. cbn [set_extracted_order_number orders] in Hnew.
  rewrite Hsame in Hnew.
  destruct (parse_lines _ _) as [self2 [[] | e]]; cbn [fst] in *;
    [| exact Hnew].
  destruct (_expand_orders_with_books self2); exact Hnew.
Qed.

(** C2 fails on the code.  An orchestrator keeps one parser, and
    [parse_file] appends to its [orders] without clearing them: whatever
    the parser held before a call is still in front of its orders after
    it.  In a batch of two files the document of the second file has a
    page for the branch of the first file, which the second file alone
    does not give; and after a file whose expansion raises, the second
    file raises too and yields no document. *)
Theorem batch_shares_parser_orders :
  (forall now self file_path readlines,
     exists new,
       orders (fst (parse_file now self file_path readlines))
       = (orders self ++ new)%list)
  /\ map page_codes
        (snd (process_multiple_files now0 PackingListOrchestrator.__init__
                [file_b]))
     = [["02000"]]
  /\ map page_codes
        (snd (process_multiple_files now0 PackingListOrchestrator.__init__
                [file_a; file_b]))
     = [["01320"]; ["01320"; "02000"]]
  /\ map page_codes
        (snd (process_multiple_files now0 PackingListOrchestrator.__init__
                [file_bad; file_b]))
     = []
  /\ (let self1 :=
        fst (parse_file now0 DATFileParser.__init__
               (path file_a) (readlines file_a)) in
      exists parsed,
        snd (parse_file now0 self1 (path file_b) (readlines file_b))
        = Ok parsed
        /\ map cheque_start_serial (Parsed.orders parsed)
           = ["000001"; "000500"]
        /\ map Book.delivery_branch_code (Parsed.expanded_orders parsed)
           = ["01320"; "02000"]).
Proof.
  split; [exact parse_file_keeps_orders |].
  split; [reflexivity |]. split; [reflexivity |]. split; [reflexivity |].
  eexists. split; [vm_compute; reflexivity |]. split; reflexivity.
Qed.

End Batch.

(** ** Sorting *)

Section StringOrder.

Lemma ascii_compare_lt_trans (a b c : ascii) :
  Ascii.compare a b = Lt -> Ascii.compare b c = Lt -> Ascii.compare a c = Lt.
Proof.
  unfold Ascii.compare. rewrite !N.compare_lt_iff. apply N.lt_trans.
Qed.

Lemma string_compare_refl (s : string) : String.compare s s = Eq.
Proof.
  induction s as [|a s IH]; [reflexivity |].
  cbn [String.compare]. unfold Ascii.compare. now rewrite N.compare_refl.
Qed.

Lemma string_compare_lt_trans (s t u : string) :
  String.compare s t = Lt -> String.compare t u = Lt ->
  String.compare s u = Lt.
Proof.
  revert t u. induction s as [|a s IH]; intros [|b t] [|c u];
    cbn [String.compare]; try discriminate; try reflexivity.
  destruct (Ascii.compare a b) eqn:Hab; try discriminate;
    destruct (Ascii.compare b c) eqn:Hbc; try discriminate; intros Hst Htu.
  - apply Ascii.compare_eq_iff in Hab, Hbc. subst b c.
    rewrite (proj2 (N.compare_eq_iff _ _) eq_refl : Ascii.compare a a = Eq).
    now apply (IH t u).
  - apply Ascii.compare_eq_iff in Hab. subst b. now rewrite Hbc.
  - apply Ascii.compare_eq_iff in Hbc. subst c. now rewrite Hab.
  - now rewrite (ascii_compare_lt_trans a b c Hab Hbc).
Qed.

Lemma ltb_lt (s t : string) : String.ltb s t = true <-> String.compare s t = Lt.
Proof.
  unfold String.ltb. destruct (String.compare s t); split;
    (reflexivity || discriminate).
Qed.

Lemma ltb_irrefl (s : string) : String.ltb s s = false.
Proof. unfold String.ltb. now rewrite string_compare_refl. Qed.

Lemma ltb_trans (s t u : string) :
  String.ltb s t = true -> String.ltb t u = true -> String.ltb s u = true.
Proof. rewrite !ltb_lt. apply string_compare_lt_trans. Qed.

Lemma ltb_asym (s t : string) :
  String.ltb s t = true -> String.ltb t s = false.
Proof.
  intros Hst. destruct (String.ltb t s) eqn:Hts; [| reflexivity].
  pose proof (ltb_trans s t s Hst Hts) as H.
  now rewrite ltb_irrefl in H.
Qed.

(** Two strings are equal or one is below the other. *)
Lemma ltb_total (s t : string) :
  String.ltb s t = false -> s <> t -> String.ltb t s = true.
Proof.
  intros Hst Hne. apply ltb_lt. rewrite String.compare_antisym.
  unfold String.ltb in Hst. destruct (String.compare s t) eqn:Hc.
  - now apply String.compare_eq_iff in Hc.
  - discriminate.
  - reflexivity.
Qed.

(** [s <= t] and [t <= u] give [s <= u], with [x <= y] read as "not
    [y < x]". *)
Lemma ltb_false_trans (s t u : string) :
  String.ltb t s = false -> String.ltb u t = false -> String.ltb u s = false.
Proof.
  intros Hts Hut. destruct (String.ltb u s) eqn:Hus; [| reflexivity].
  destruct (String.eqb_spec s t) as [-> | Hne]; [congruence |].
  pose proof (ltb_total t s Hts (not_eq_sym Hne)) as Hst.
  pose proof (ltb_trans u s t Hus Hst). congruence.
Qed.

End StringOrder.

Section Sorting.

Context {A : Type} (before : A -> A -> bool).

(** [x] may stand in front of [y]. *)
Let may_precede (x y : A) : Prop := before y x = false.

Hypothesis before_asym : forall x y, before x y = true -> before y x = false.
Hypothesis before_false_trans :
  forall x y z, before y x = false -> before z y = false -> before z x = false.

Lemma insert_sorted_perm (x : A) (l : list A) :
  Permutation (insert_sorted before x l) (x :: l).
Proof.
  induction l as [|y r IH]; cbn [insert_sorted]; [reflexivity |].
  destruct (before y x); [| reflexivity].
  rewrite IH. apply perm_swap.
Qed.

Lemma sorted_perm (l : list A) : Permutation (sorted before l) l.
Proof.
  induction l as [|x l IH]; [reflexivity |].
  cbn [sorted fold_right]. fold (sorted before l).
  rewrite insert_sorted_perm. now constructor.
Qed.

Lemma insert_sorted_ordered (x : A) (l : list A) :
  StronglySorted may_precede l ->
  StronglySorted may_precede (insert_sorted before x l).
Proof.
  induction l as [|y r IH]; intros Hl; cbn [insert_sorted].
  - repeat constructor.
  - apply StronglySorted_inv in Hl as [Hr Hy].
    destruct (before y x) eqn:Hyx.
    + constructor; [now apply IH |].
      apply (Permutation_Forall (Permutation_sym (insert_sorted_perm x r))).
      constructor; [| exact Hy]. now apply before_asym.
    + constructor; [now constructor |].
      constructor; [exact Hyx |].
      revert Hy. apply Forall_impl. intros z Hz.
      now apply (before_false_trans x y z).
Qed.

Lemma sorted_ordered (l : list A) : StronglySorted may_precede (sorted before l).
Proof.
  induction l as [|x l IH]; [constructor |].
  cbn [sorted fold_right]. now apply insert_sorted_ordered.
Qed.

End Sorting.

(** Sorting the images under [f] is the image of sorting, when [f] carries
    one order to the other. *)
Lemma insert_sorted_map {A B : Type} (f : A -> B) (before : A -> A -> bool)
    (before' : B -> B -> bool) (x : A) (l : list A) :
  (forall a b, before' (f a) (f b) = before a b) ->
  insert_sorted before' (f x) (map f l) = map f (insert_sorted before x l).
Proof.
  intros Hf. induction l as [|y r IH]; [reflexivity |].
  cbn [map insert_sorted]. rewrite Hf.
  destruct (before y x); [| reflexivity].
  cbn [map]. now rewrite IH.
Qed.

Lemma sorted_map {A B : Type} (f : A -> B) (before : A -> A -> bool)
    (before' : B -> B -> bool) (l : list A) :
  (forall a b, before' (f a) (f b) = before a b) ->
  sorted before' (map f l) = map f (sorted before l).
Proof.
  intros Hf. induction l as [|x l IH]; [reflexivity |].
  cbn [map sorted fold_right]. fold (sorted before' (map f l)).
  fold (sorted before l). rewrite IH. now apply insert_sorted_map.
Qed.

(** ** Grouping by delivery branch *)

Section Grouping.

Import PackingListGenerator.

Lemma dict_lookup_append_to {V : Type} (d : dict (list V)) (k k' : string)
    (v : V) :
  dict_lookup (dict_append_to d k v) k'
  = if String.eqb k k'
    then Some (match dict_lookup d k with
               | Some vs => vs ++ [v]
               | None => [v]
               end)%list
    else dict_lookup d k'.
Proof.
  induction d as [|[k0 vs] r IH]; cbn [dict_append_to dict_lookup].
  - reflexivity.
  - destruct (String.eqb_spec k0 k) as [-> | Hk0]; cbn [dict_lookup].
    + destruct (String.eqb_spec k k'); reflexivity.
    + destruct (String.eqb_spec k0 k') as [-> | Hk0'].
      * destruct (String.eqb_spec k k'); [congruence | reflexivity].
      * exact IH.
Qed.

Lemma dict_keys_append_to {V : Type} (d : dict (list V)) (k k' : string)
    (v : V) :
  In k' (dict_keys (dict_append_to d k v)) <-> k' = k \/ In k' (dict_keys d).
Proof.
  induction d as [|[k0 vs] r IH]; cbn [dict_append_to dict_keys map fst In].
  - intuition.
  - destruct (String.eqb_spec k0 k) as [-> | Hk0];
      cbn [dict_keys map fst In].
    + intuition.
    + fold (dict_keys (dict_append_to r k v)). fold (dict_keys r).
      rewrite IH. intuition.
Qed.

Lemma dict_keys_append_to_NoDup {V : Type} (d : dict (list V)) (k : string)
    (v : V) :
  NoDup (dict_keys d) -> NoDup (dict_keys (dict_append_to d k v)).
Proof.
  induction d as [|[k0 vs] r IH]; cbn [dict_append_to dict_keys map fst].
  - intros _. repeat constructor. intros [].
  - intros Hnd. apply NoDup_cons_iff in Hnd as [Hk0 Hr].
    destruct (String.eqb_spec k0 k) as [-> | Hne];
      cbn [dict_keys map fst].
    + now constructor.
    + constructor; [| now apply IH].
      fold (dict_keys (dict_append_to r k v)).
      rewrite dict_keys_append_to. intros [-> | Hin]; [congruence |].
      now apply Hk0.
Qed.

Lemma dict_keys_lookup {V : Type} (d : dict V) (k : string) :
  In k (dict_keys d) <-> exists v, dict_lookup d k = Some v.
Proof.
  induction d as [|[k0 v0] r IH]; cbn [dict_keys map fst In dict_lookup].
  - split; [intros [] | intros [v Hv]; discriminate].
  - destruct (String.eqb_spec k0 k) as [-> | Hne].
    + split; [intros _; now exists v0 | now left].
    + fold (dict_keys r). rewrite <- IH. intuition.
Qed.

(** The number of books held by the groups. *)
Let group_sizes {V : Type} (d : dict (list V)) : Z :=
  fold_right Z.add 0 (map (fun kv => Z.of_nat (List.length (snd kv))) d).

Lemma group_sizes_append_to {V : Type} (d : dict (list V)) (k : string)
    (v : V) :
  group_sizes (dict_append_to d k v) = group_sizes d + 1.
Proof.
  unfold group_sizes.
  induction d as [|[k0 vs] r IH]; cbn [dict_append_to map fold_right snd].
  - reflexivity.
  - destruct (String.eqb k0 k); cbn [map fold_right snd].
    + rewrite List.length_app. cbn [List.length]. lia.
    + rewrite IH. lia.
Qed.

(** The books of [books] whose stripped delivery code is [k]. *)
Let books_of (k : string) (books : list Book.t) : list Book.t :=
  filter (fun book => String.eqb (strip (Book.delivery_branch_code book)) k)
         books.

(** The books of [books] that have a delivery code. *)
Let with_code (books : list Book.t) : list Book.t :=
  filter (fun book =>
            negb (String.eqb (strip (Book.delivery_branch_code book)) ""))
         books.

(** What the grouping loop has built after the books [seen]. *)
Let grouped_after (grouped : dict (list Book.t)) (seen : list Book.t) : Prop :=
  NoDup (dict_keys grouped)
  /\ group_sizes grouped = Z.of_nat (List.length (with_code seen))
  /\ forall k,
       dict_lookup grouped k
       = if String.eqb k "" then None
         else match books_of k seen with
              | [] => None
              | l => Some l
              end.

Let step (grouped : dict (list Book.t)) (order : Book.t) :=
  let delivery_code := strip (Book.delivery_branch_code order) in
  match delivery_code with
  | "" => grouped
  | _ => dict_append_to grouped delivery_code order
  end.

Lemma grouped_after_step (grouped : dict (list Book.t))
    (seen : list Book.t) (order : Book.t) :
  grouped_after grouped seen ->
  grouped_after (step grouped order) (seen ++ [order])%list.
Proof.
  intros (Hnd & Hsize & Hlook). unfold step, grouped_after, with_code, books_of.
  cbv zeta.
  destruct (strip (Book.delivery_branch_code order)) as [|c r] eqn:Hcode.
  - split; [exact Hnd |]. split.
    + rewrite filter_app. cbn [filter]. rewrite Hcode. cbn.
      now rewrite app_nil_r.
    + intros k. rewrite Hlook. destruct (String.eqb_spec k ""); [reflexivity |].
      unfold books_of. rewrite filter_app. cbn [filter]. rewrite Hcode.
      destruct (String.eqb_spec "" k); [congruence |].
      now rewrite app_nil_r.
  - split; [now apply dict_keys_append_to_NoDup |]. split.
    + rewrite group_sizes_append_to, Hsize.
      unfold with_code. rewrite filter_app. cbn [filter]. rewrite Hcode.
      cbn [String.eqb negb]. rewrite List.length_app. cbn [List.length]. lia.
    + intros k. rewrite dict_lookup_append_to, !Hlook.
      unfold books_of. rewrite filter_app. cbn [filter]. rewrite Hcode.
      destruct (String.eqb_spec (String c r) k) as [<- | Hne].
      * cbn [String.eqb].
        destruct (filter _ seen); reflexivity.
      * now rewrite app_nil_r.
Qed.

Lemma grouped_after_fold (books seen : list Book.t)
    (grouped : dict (list Book.t)) :
  grouped_after grouped seen ->
  grouped_after (fold_left step books grouped) (seen ++ books)%list.
Proof.
  revert seen grouped. induction books as [|order rest IH];
    intros seen grouped H.
  - now rewrite app_nil_r.
  - cbn [fold_left].
    replace (seen ++ order :: rest)%list
      with ((seen ++ [order]) ++ rest)%list by now rewrite <- app_assoc.
    now apply IH, grouped_after_step.
Qed.

(** The groups: distinct keys, one per delivery code in use, each with
    the books of that code in their order of arrival. *)
Lemma group_books_spec (books : list Book.t) :
  let grouped := group_books_by_delivery_branch books in
  NoDup (dict_keys grouped)
  /\ fold_right Z.add 0
       (map (fun kv => Z.of_nat (List.length (snd kv))) grouped)
     = Z.of_nat
         (List.length
            (filter (fun book =>
                       negb (String.eqb
                               (strip (Book.delivery_branch_code book)) ""))
                    books))
  /\ forall k,
       dict_lookup grouped k
       = if String.eqb k "" then None
         else match filter (fun book =>
                              String.eqb
                                (strip (Book.delivery_branch_code book)) k)
                           books with
              | [] => None
              | l => Some l
              end.
Proof.
  intros grouped.
  assert (grouped_after [] []) as Hinit.
  { split; [constructor |]. split; [reflexivity |].
    intros k. now destruct (String.eqb k ""). }
  exact (grouped_after_fold books [] [] Hinit).
Qed.

End Grouping.

(** ** The packing lists *)

Section PackingLists.

Import PackingListGenerator PackingListPDFMapper Samples.

Lemma Forall2_In_l {A B : Type} (R : A -> B -> Prop) (l : list A)
    (l' : list B) (x : A) :
  Forall2 R l l' -> In x l -> exists y, In y l' /\ R x y.
Proof.
  induction 1 as [|a b l l' Hab _ IH]; intros Hin; [contradiction |].
  destruct Hin as [-> | Hin].
  - exists b. split; [now left | exact Hab].
  - destruct (IH Hin) as (y & Hy & Hxy). exists y. split; [now right | exact Hxy].
Qed.

Lemma Forall2_In_r {A B : Type} (R : A -> B -> Prop) (l : list A)
    (l' : list B) (y : B) :
  Forall2 R l l' -> In y l' -> exists x, In x l /\ R x y.
Proof.
  induction 1 as [|a b l l' Hab _ IH]; intros Hin; [contradiction |].
  destruct Hin as [-> | Hin].
  - exists a. split; [now left | exact Hab].
  - destruct (IH Hin) as (x & Hx & Hxy). exists x. split; [now right | exact Hxy].
Qed.

Lemma StronglySorted_map {A B : Type} (R : B -> B -> Prop) (f : A -> B)
    (l : list A) :
  StronglySorted R (map f l) <-> StronglySorted (fun x y => R (f x) (f y)) l.
Proof.
  induction l as [|a l IH]; cbn [map].
  - split; constructor.
  - split; intros H; apply StronglySorted_inv in H as [Hl Ha].
    + constructor; [exact (proj1 IH Hl) |].
      exact (proj1 (Forall_map f (R (f a)) l) Ha).
    + constructor; [exact (proj2 IH Hl) |].
      exact (proj2 (Forall_map f (R (f a)) l) Ha).
Qed.

Lemma fold_left_sum {A : Type} (f : A -> Z) (l : list A) (acc : Z) :
  fold_left (fun acc x => acc + f x) l acc
  = acc + fold_right Z.add 0 (map f l).
Proof.
  revert acc. induction l as [|x l IH]; intros acc; cbn; [lia |].
  rewrite IH. lia.
Qed.

Lemma sum_Permutation (l l' : list Z) :
  Permutation l l' -> fold_right Z.add 0 l = fold_right Z.add 0 l'.
Proof. induction 1; cbn; lia. Qed.

(** The packing list of the branch [k], whose group is [first :: others]. *)
Let packing_list_of (order_number order_date k : string) (first : Book.t)
    (others : list Book.t) : PackingList.t :=
  {| PackingList.bank_name := bank_name;
     PackingList.order_number := order_number;
     PackingList.order_date := order_date;
     PackingList.delivery_branch_code := k;
     PackingList.delivery_branch_name := strip (Book.delivery_branch_name first);
     PackingList.total_books := Z.of_nat (List.length (first :: others));
     PackingList.books := map book_entry (first :: others) |}.

(** The loop returns one packing list per code, in the order of the
    codes, when every code has a group that is not empty. *)
Lemma packing_loop_spec (grouped : dict (list Book.t))
    (order_number order_date : string) (codes : list string)
    (packing_lists : list PackingList.t) :
  (forall k, In k codes ->
     exists first others, dict_lookup grouped k = Some (first :: others)) ->
  exists new,
    packing_loop grouped order_number order_date codes packing_lists
    = Ok (packing_lists ++ new)%list
    /\ Forall2
         (fun k p =>
            exists first others,
              dict_lookup grouped k = Some (first :: others)
              /\ p = packing_list_of order_number order_date k first others)
         codes new.
Proof.
  revert packing_lists. induction codes as [|k rest IH];
    intros packing_lists Hcodes.
  - exists []. split; [cbn; now rewrite app_nil_r | constructor].
  - destruct (Hcodes k (or_introl eq_refl)) as (first & others & Hk).
    cbn [packing_loop]. rewrite Hk. cbn [bind].
    destruct (IH (packing_lists
                  ++ [packing_list_of order_number order_date k first others])%list)
      as (new & Hnew & Hall).
    { intros k' Hk'. apply Hcodes. now right. }
    exists (packing_list_of order_number order_date k first others :: new).
    split.
    + unfold packing_list_of in Hnew. rewrite Hnew.
      now rewrite <- app_assoc.
    + constructor; [| exact Hall]. now exists first, others.
Qed.

Lemma dict_lookup_keys_sizes {V : Type} (d : dict (list V)) :
  NoDup (dict_keys d) ->
  map (fun k => Z.of_nat (List.length (dict_get d k []))) (dict_keys d)
  = map (fun kv => Z.of_nat (List.length (snd kv))) d.
Proof.
  induction d as [|[k vs] r IH]; [reflexivity |].
  cbn [dict_keys map fst snd]. intros Hnd.
  apply NoDup_cons_iff in Hnd as [Hk Hr]. f_equal.
  - unfold dict_get. cbn [dict_lookup]. now rewrite String.eqb_refl.
  - rewrite <- (IH Hr). apply map_ext_in. intros k' Hk'.
    unfold dict_get. cbn [dict_lookup].
    destruct (String.eqb_spec k k') as [-> | _]; [contradiction | reflexivity].
Qed.

(** The packing lists of a list of books, with what the claims about
    them need: they follow the sorted keys of the groups, and each one
    holds a group. *)
Lemma generate_packing_lists_spec (expanded_orders : list Book.t)
    (order_number order_date : string) :
  let grouped := group_books_by_delivery_branch expanded_orders in
  let codes := sorted String.ltb (dict_keys grouped) in
  exists packing_lists,
    generate_packing_lists expanded_orders order_number order_date
    = Ok packing_lists
    /\ Forall2
         (fun k p =>
            exists first others,
              dict_lookup grouped k = Some (first :: others)
              /\ p = packing_list_of order_number order_date k first others)
         codes packing_lists.
Proof.
  intros grouped codes.
  destruct (packing_loop_spec grouped order_number order_date codes [])
    as (new & Hnew & Hall).
  - intros k Hk.
    apply (Permutation_in _ (sorted_perm String.ltb (dict_keys grouped)))
      in Hk.
    apply dict_keys_lookup in Hk as [vs Hvs].
    destruct (group_books_spec expanded_orders) as (_ & _ & Hlook).
    fold grouped in Hlook. pose proof (Hlook k) as Hk'. rewrite Hvs in Hk'.
    destruct (String.eqb k ""); [discriminate |].
    destruct (filter _ expanded_orders) as [|first others];
      [discriminate |].
    exists first, others. congruence.
  - exists new. split; [exact Hnew | exact Hall].
Qed.

Lemma Forall2_map_eq {A B C : Type} (R : A -> B -> Prop) (g : B -> C)
    (h : A -> C) (l : list A) (l' : list B) :
  Forall2 R l l' -> (forall a b, R a b -> g b = h a) -> map g l' = map h l.
Proof.
  intros Hall Hgh. induction Hall as [|a b l l' Hab _ IH]; [reflexivity |].
  cbn [map]. now rewrite IH, (Hgh a b Hab).
Qed.

Lemma strictly_sorted (l : list string) :
  StronglySorted (fun x y => String.ltb y x = false) l ->
  NoDup l ->
  StronglySorted (fun x y => String.ltb x y = true) l.
Proof.
  induction l as [|a l IH]; intros Hs Hnd; [constructor |].
  apply StronglySorted_inv in Hs as [Hl Ha].
  apply NoDup_cons_iff in Hnd as [Hnotin Hnd].
  constructor; [now apply IH |].
  rewrite Forall_forall in *. intros y Hy.
  apply ltb_total; [now apply Ha |]. now intros ->.
Qed.

(** C8.  [generate_packing_lists] returns one packing list per delivery
    branch code in use, in strictly ascending order of the code; the
    packing list of a code holds the books whose stripped delivery code
    is that code, in their order of arrival; and the rows of its table
    are those books sorted by book style, descending: the rows are made,
    field by field, from a rearrangement of the books of the branch in
    which no book has a smaller [book_style] than a later one, and the
    book code of a row is the [book_style] of its book. *)
Theorem packing_lists_grouped_and_sorted (expanded_orders : list Book.t)
    (order_number order_date : string) :
  exists packing_lists,
    generate_packing_lists expanded_orders order_number order_date
    = Ok packing_lists
    /\ StronglySorted
         (fun p q =>
            String.ltb (PackingList.delivery_branch_code p)
                       (PackingList.delivery_branch_code q) = true)
         packing_lists
    /\ (forall book,
          In book expanded_orders ->
          strip (Book.delivery_branch_code book) <> "" ->
          exists p,
            In p packing_lists
            /\ PackingList.delivery_branch_code p
               = strip (Book.delivery_branch_code book))
    /\ (forall p,
          In p packing_lists ->
          PackingList.books p <> []
          /\ PackingList.books p
             = map book_entry
                 (filter
                    (fun book =>
                       String.eqb (strip (Book.delivery_branch_code book))
                                  (PackingList.delivery_branch_code p))
                    expanded_orders)
          /\ Permutation
               (_create_books_table (PackingList.books p)
                  (PackingList.delivery_branch_name p))
               (map (book_row (PackingList.delivery_branch_name p))
                    (PackingList.books p))
          /\ StronglySorted
               (fun r1 r2 =>
                  String.ltb (row_book_style r1) (row_book_style r2) = false)
               (_create_books_table (PackingList.books p)
                  (PackingList.delivery_branch_name p))
          /\ exists sorted_books,
               Permutation sorted_books
                 (filter
                    (fun book =>
                       String.eqb (strip (Book.delivery_branch_code book))
                                  (PackingList.delivery_branch_code p))
                    expanded_orders)
               /\ StronglySorted
                    (fun b1 b2 =>
                       String.ltb (Book.book_style b1) (Book.book_style b2)
                       = false)
                    sorted_books
               /\ _create_books_table (PackingList.books p)
                    (PackingList.delivery_branch_name p)
                  = map (fun book =>
                           (Book.book_style book,
                            strip (Book.account_name book),
                            strip (Book.account_number book),
                            strip (Book.serial_number book),
                            strip (Book.delivery_branch_code book),
                            PackingList.delivery_branch_name p))
                        sorted_books
               /\ map row_book_style
                    (_create_books_table (PackingList.books p)
                       (PackingList.delivery_branch_name p))
                  = map Book.book_style sorted_books).
Proof.
  destruct (generate_packing_lists_spec expanded_orders order_number order_date)
    as (packing_lists & Hgen & Hall).
  destruct (group_books_spec expanded_orders) as (Hnd & _ & Hlook).
  cbv zeta in Hall, Hnd, Hlook.
  set (grouped := group_books_by_delivery_branch expanded_orders) in *.
  pose proof (sorted_perm String.ltb (dict_keys grouped)) as Hperm.
  set (codes := sorted String.ltb (dict_keys grouped)) in *.
  exists packing_lists. split; [exact Hgen |].
  assert (map PackingList.delivery_branch_code packing_lists = codes) as Hcodes.
  { rewrite <- (map_id codes).
    apply (Forall2_map_eq _ _ _ _ _ Hall).
    now intros k p (first & others & _ & ->). }
  split.
  { apply (StronglySorted_map (fun x y => String.ltb x y = true)).
    rewrite Hcodes. apply strictly_sorted.
    - apply (sorted_ordered String.ltb ltb_asym ltb_false_trans).
    - apply (Permutation_NoDup (Permutation_sym Hperm) Hnd). }
  split.
  { intros book Hin Hcode.
    set (k := strip (Book.delivery_branch_code book)) in *.
    assert (In k codes) as Hk.
    { apply (Permutation_in _ (Permutation_sym Hperm)).
      apply dict_keys_lookup. rewrite Hlook.
      destruct (String.eqb_spec k ""); [contradiction |].
      destruct (filter _ expanded_orders) as [|first others] eqn:Hf;
        [| now eexists].
      assert (In book []) as [].
      rewrite <- Hf. apply filter_In. split; [exact Hin |].
      apply String.eqb_refl. }
    destruct (Forall2_In_l _ _ _ _ Hall Hk)
      as (p & Hp & first & others & _ & ->).
    now exists (packing_list_of order_number order_date k first others). }
  intros p Hp.
  destruct (Forall2_In_r _ _ _ _ Hall Hp)
    as (k & Hk & first & others & Hgroup & ->).
  cbn [packing_list_of PackingList.books PackingList.delivery_branch_code
       PackingList.delivery_branch_name].
  assert (filter
            (fun book => String.eqb (strip (Book.delivery_branch_code book)) k)
            expanded_orders = first :: others) as Hfilter.
  { pose proof (Hlook k) as Hk'. rewrite Hgroup in Hk'.
    destruct (String.eqb k ""); [discriminate |].
    destruct (filter _ expanded_orders); [discriminate | congruence]. }
  split; [discriminate |].
  split; [now rewrite Hfilter |].
  split; [unfold _create_books_table; apply Permutation_map, sorted_perm |].
  split.
  - unfold _create_books_table.
    apply (StronglySorted_map
             (fun r1 r2 =>
                String.ltb (row_book_style r1) (row_book_style r2) = false)).
    apply (sorted_ordered
             (fun x y => String.ltb (Entry.book_style y) (Entry.book_style x))).
    + intros x y. apply ltb_asym.
    + intros x y z Hxy Hyz.
      exact (ltb_false_trans _ _ _ Hyz Hxy).
  - set (by_style := fun x y : Book.t =>
                       String.ltb (Book.book_style y) (Book.book_style x)).
    assert (_create_books_table (map book_entry (first :: others))
              (strip (Book.delivery_branch_name first))
            = map (fun book =>
                     book_row (strip (Book.delivery_branch_name first))
                       (book_entry book))
                  (sorted by_style (first :: others))) as Hrows.
    { unfold _create_books_table.
      rewrite (sorted_map book_entry by_style); [apply map_map |].
      intros a b. reflexivity. }
    exists (sorted by_style (first :: others)).
    split; [rewrite Hfilter; apply sorted_perm |].
    split.
    { apply (sorted_ordered by_style); unfold by_style.
      - intros x y. apply ltb_asym.
      - intros x y z Hxy Hyz. exact (ltb_false_trans _ _ _ Hyz Hxy). }
    split; [rewrite Hrows; apply map_ext; intros book; reflexivity |].
    rewrite Hrows, map_map. apply map_ext. intros book. reflexivity.
Qed.

(** C10.  A book whose delivery branch code strips to the empty string
    is in no packing list: every entry of every packing list, and every
    row of its table, has a branch code that is not empty, the
    [total_books] of the packing lists add up
    to the number of books with a delivery code, which is at most the
    number of books passed in, and with a blank code among two books it
    is strictly less. *)
Theorem blank_delivery_code_excluded (expanded_orders : list Book.t)
    (order_number order_date : string) :
  exists packing_lists,
    generate_packing_lists expanded_orders order_number order_date
    = Ok packing_lists
    /\ sum_total_books packing_lists
       = Z.of_nat
           (List.length
              (filter
                 (fun book =>
                    negb (String.eqb
                            (strip (Book.delivery_branch_code book)) ""))
                 expanded_orders))
    /\ sum_total_books packing_lists <= Z.of_nat (List.length expanded_orders)
    /\ (forall p entry,
          In p packing_lists -> In entry (PackingList.books p) ->
          Entry.branch_code entry <> "")
    /\ (forall p row,
          In p packing_lists ->
          In row (_create_books_table (PackingList.books p)
                    (PackingList.delivery_branch_name p)) ->
          row_branch_code row <> "")
    /\ (forall book,
          In book expanded_orders ->
          strip (Book.delivery_branch_code book) = "" ->
          forall p, In p packing_lists ->
                    ~ In (book_entry book) (PackingList.books p))
    /\ (exists packing_list,
          generate_packing_lists [blank_code_book; branch_book]
            order_number order_date = Ok [packing_list]
          /\ sum_total_books [packing_list] = 1
          /\ sum_total_books [packing_list]
             < Z.of_nat (List.length [blank_code_book; branch_book])).
Proof.
  destruct (generate_packing_lists_spec expanded_orders order_number order_date)
    as (packing_lists & Hgen & Hall).
  destruct (group_books_spec expanded_orders) as (Hnd & Hsize & Hlook).
  cbv zeta in Hall, Hnd, Hsize, Hlook.
  set (grouped := group_books_by_delivery_branch expanded_orders) in *.
  pose proof (sorted_perm String.ltb (dict_keys grouped)) as Hperm.
  set (codes := sorted String.ltb (dict_keys grouped)) in *.
  exists packing_lists. split; [exact Hgen |].
  assert (sum_total_books packing_lists
          = Z.of_nat
              (List.length
                 (filter
                    (fun book =>
                       negb (String.eqb
                               (strip (Book.delivery_branch_code book)) ""))
                    expanded_orders))) as Hsum.
  { unfold sum_total_books. rewrite fold_left_sum, Z.add_0_l.
    rewrite (Forall2_map_eq _ PackingList.total_books
               (fun k => Z.of_nat (List.length (dict_get grouped k [])))
               _ _ Hall).
    - rewrite (sum_Permutation _ _ (Permutation_map _ Hperm)).
      now rewrite dict_lookup_keys_sizes.
    - intros k p (first & others & Hgroup & ->).
      unfold dict_get. now rewrite Hgroup. }
  assert (forall p entry,
            In p packing_lists -> In entry (PackingList.books p) ->
            Entry.branch_code entry <> "") as Hrows.
  { intros p entry Hp Hentry.
    destruct (Forall2_In_r _ _ _ _ Hall Hp)
      as (k & Hk & first & others & Hgroup & ->).
    cbn [packing_list_of PackingList.books] in Hentry.
    apply in_map_iff in Hentry as (book & <- & Hbook).
    rewrite Hlook in Hgroup.
    destruct (String.eqb k "") eqn:Hne; [discriminate Hgroup |].
    apply String.eqb_neq in Hne.
    destruct (filter
                (fun b0 =>
                   String.eqb (strip (Book.delivery_branch_code b0)) k)
                expanded_orders) as [|b bs] eqn:Hf;
      [discriminate Hgroup |].
    injection Hgroup as <- <-. rewrite <- Hf in Hbook.
    apply filter_In in Hbook as [_ Hcode].
    apply String.eqb_eq in Hcode. cbn [book_entry Entry.branch_code].
    congruence. }
  split; [exact Hsum |].
  split; [rewrite Hsum; apply inj_le, filter_length_le |].
  split; [exact Hrows |].
  split.
  { intros p row Hp Hrow. unfold _create_books_table in Hrow.
    apply in_map_iff in Hrow as (entry & <- & Hentry).
    apply (Permutation_in _ (sorted_perm _ (PackingList.books p))) in Hentry.
    exact (Hrows p entry Hp Hentry). }
  split.
  - intros book _ Hblank p Hp Hentry.
    apply (Hrows p _ Hp Hentry). exact Hblank.
  - eexists. split; [vm_compute; reflexivity |].
    split; [reflexivity | cbn; lia].
Qed.

End PackingLists.

(** * Further properties of the decoder *)

Section DecoderFacts.

Import DATFileParser Samples.

Lemma lstrip_head (s : string) :
  lstrip s = "" \/ exists c r, lstrip s = String c r /\ is_space c = false.
Proof.
  induction s as [|c s IH]; [now left |].
  cbn [lstrip]. destruct (is_space c) eqn:Hc; [exact IH |].
  right. now exists c, s.
Qed.

Lemma rstrip_head (c : ascii) (r : string) :
  is_space c = false -> exists r', rstrip (String c r) = String c r'.
Proof.
  intros Hc. cbn [rstrip]. destruct (rstrip r) as [|c' r'].
  - rewrite Hc. now exists "".
  - now exists (String c' r').
Qed.

Lemma rstrip_idempotent (s : string) : rstrip (rstrip s) = rstrip s.
Proof.
  induction s as [|c s IH]; [reflexivity |].
  cbn [rstrip]. destruct (rstrip s) as [|c' r'] eqn:Hr.
  - destruct (is_space c) eqn:Hc; [reflexivity |].
    cbn [rstrip]. now rewrite Hc.
  - cbn [rstrip]. cbn [rstrip] in IH. rewrite IH. reflexivity.
Qed.

Lemma strip_idempotent (s : string) : strip (strip s) = strip s.
Proof.
  unfold strip. destruct (lstrip_head s) as [-> | (c & r & -> & Hc)];
    [reflexivity |].
  destruct (rstrip_head c r Hc) as [r' Hr'].
  rewrite Hr' at 1. cbn [lstrip]. rewrite Hc, <- Hr'.
  apply rstrip_idempotent.
Qed.

Lemma lstrip_length (s : string) : (length (lstrip s) <= length s)%nat.
Proof.
  induction s as [|c s IH]; [reflexivity |].
  cbn [lstrip]. destruct (is_space c); cbn [length]; lia.
Qed.

Lemma rstrip_length (s : string) : (length (rstrip s) <= length s)%nat.
Proof.
  induction s as [|c s IH]; [reflexivity |].
  cbn [rstrip]. destruct (rstrip s) as [|c' r'].
  - destruct (is_space c); cbn [length]; lia.
  - cbn [length] in *. lia.
Qed.

Lemma strip_length (s : string) : (length (strip s) <= length s)%nat.
Proof.
  unfold strip. pose proof (rstrip_length (lstrip s)).
  pose proof (lstrip_length s). lia.
Qed.

Lemma substring_length (n m : nat) (s : string) :
  (length (substring n m s) <= m)%nat.
Proof.
  revert n m. induction s as [|c s IH]; intros n m.
  - destruct n, m; cbn; lia.
  - destruct n as [|n].
    + destruct m as [|m]; cbn [substring length]; [lia |].
      specialize (IH 0%nat m). lia.
    + cbn [substring]. apply IH.
Qed.

Lemma substring_app_within (n m : nat) (s t : string) :
  (n + m <= length s)%nat -> substring n m (s ++ t) = substring n m s.
Proof.
  revert n m. induction s as [|c s IH]; intros n m Hlen.
  - cbn [length] in Hlen. assert (n = 0 /\ m = 0)%nat as [-> ->] by lia.
    now destruct t.
  - cbn [length] in Hlen. destruct n as [|n].
    + destruct m as [|m]; [reflexivity |].
      cbn [append substring]. f_equal. apply IH. lia.
    + cbn [append substring]. apply IH. lia.
Qed.

(** X1.  The decoder drops a line exactly when its count columns, taken
    after padding and stripped, are not empty and do not read as an
    integer; in every other case it returns a record whose count is the
    integer read, or 1 for blank count columns. *)
Theorem decoder_drops_only_bad_count (line : string) :
  let padded := if (length line <? 210)%nat then ljust 210 line else line in
  let count := strip (slice padded 26 30) in
  (_parse_order_record line = Ok None
   <-> count <> "" /\ forall n, py_int count <> Ok n)
  /\ (count = "" ->
      exists order,
        _parse_order_record line = Ok (Some order)
        /\ number_of_books order = 1)
  /\ (forall n,
        count <> "" -> py_int count = Ok n ->
        exists order,
          _parse_order_record line = Ok (Some order)
          /\ number_of_books order = n).
Proof.
  intros padded count.
  pose proof (_parse_order_record_unfold line) as H. cbv zeta in H.
  fold padded in H. fold count in H.
  destruct count as [|c r] eqn:Hcount.
  - destruct H as (order & Hdec & Hnum & _).
    split; [| split].
    + split; [rewrite Hdec; discriminate | now intros [Hne _]].
    + intros _. now exists order.
    + now intros n Hne.
  - split; [| split].
    + destruct (py_int (String c r)) as [n | e].
      * destruct H as (order & Hdec & _). split.
        -- rewrite Hdec. discriminate.
        -- intros [_ Hbad]. now elim (Hbad n).
      * split; [| intros _; exact H].
        intros _. split; discriminate.
    + discriminate.
    + intros n _ Hn. rewrite Hn in H.
      destruct H as (order & Hdec & Hnum & _). now exists order.
Qed.

(** X2.  Every string field of a decoded record is stripped, so that
    stripping it again changes nothing, and is no longer than its column
    range. *)
Theorem decoded_fields_stripped_and_bounded (line : string)
    (order : OrderRecord) :
  _parse_order_record line = Ok (Some order) ->
  Forall (fun '(a, b, field) =>
            strip (field order) = field order
            /\ (length (field order) <= b - a)%nat)
         string_fields.
Proof.
  intros Hdec.
  pose proof (_parse_order_record_unfold line) as H. cbv zeta in H.
  destruct (match strip _ with "" => Ok 1 | _ => _ end).
  - destruct H as (order' & Hdec' & _ & Hfields).
    rewrite Hdec in Hdec'. injection Hdec' as <-.
    revert Hfields. apply Forall_impl. intros [[lo hi] field] ->.
    split; [apply strip_idempotent |].
    pose proof (strip_length
                  (slice (if (length line <? 210)%nat
                          then ljust 210 line else line) lo hi)).
    pose proof (substring_length lo (hi - lo)
                  (if (length line <? 210)%nat then ljust 210 line else line)).
    unfold slice in *. lia.
  - rewrite Hdec in H. discriminate.
Qed.

Lemma decoded_fields_stripped_and_bounded_witness :
  Forall (fun '(a, b, field) =>
            strip (field good_order) = field good_order
            /\ (length (field good_order) <= b - a)%nat)
         string_fields.
Proof.
  apply (decoded_fields_stripped_and_bounded
           (order_line "01" "0002" "000001" "01320")).
  reflexivity.
Defined.

(** X3.  Whatever follows column 210 of a line is ignored by the
    decoder. *)
Theorem decoder_ignores_beyond_210 (line extra : string) :
  (210 <= length line)%nat ->
  _parse_order_record (line ++ extra) = _parse_order_record line.
Proof.
  intros Hlen. unfold _parse_order_record.
  assert ((length (line ++ extra) <? 210)%nat = false) as ->
    by (apply Nat.ltb_ge; rewrite string_length_app; lia).
  assert ((length line <? 210)%nat = false) as -> by (now apply Nat.ltb_ge).
  unfold slice. rewrite !substring_app_within by lia. reflexivity.
Qed.

Lemma decoder_ignores_beyond_210_witness :
  _parse_order_record
    (ljust 210 (order_line "01" "0002" "000001" "01320") ++ "tail")
  = Ok (Some good_order).
Proof.
  rewrite (decoder_ignores_beyond_210
             (ljust 210 (order_line "01" "0002" "000001" "01320")) "tail").
  - reflexivity.
  - vm_compute. lia.
Defined.

End DecoderFacts.

(** * Further properties of [parse_file] *)

Section ParseFileFacts.

Import DATFileParser Samples.

Lemma rstrip_chars_all (p : ascii -> bool) (t : string) :
  all_chars p t = true -> rstrip_chars p t = "".
Proof.
  induction t as [|c t IH]; [reflexivity |].
  cbn [all_chars rstrip_chars]. intros [Hc Ht]%andb_prop.
  now rewrite (IH Ht), Hc.
Qed.

Lemma rstrip_chars_app (p : ascii -> bool) (s t : string) :
  all_chars p t = true -> rstrip_chars p (s ++ t) = rstrip_chars p s.
Proof.
  intros Ht. induction s as [|c s IH]; cbn [append rstrip_chars].
  - now apply rstrip_chars_all.
  - now rewrite IH.
Qed.

Lemma get_substring_one (n : nat) (s t : string) (c : ascii) :
  get n s = Some c -> substring n 1 (s ++ t) = String c "".
Proof.
  revert n. induction s as [|a s IH]; intros n; [discriminate |].
  destruct n as [|n]; cbn [get append substring].
  - intros [= ->]. now destruct (s ++ t).
  - apply IH.
Qed.

(** The record decoded from a line has the third character of the line,
    stripped, as its [order_id]. *)
Lemma decoded_order_id (line : string) (c : ascii) (order : OrderRecord) :
  get 2 line = Some c ->
  _parse_order_record line = Ok (Some order) ->
  order_id order = strip (String c "").
Proof.
  intros Hget Hdec.
  pose proof (_parse_order_record_unfold line) as H. cbv zeta in H.
  destruct (match strip _ with "" => Ok 1 | _ => _ end);
    [| rewrite Hdec in H; discriminate].
  destruct H as (order' & Hdec' & _ & Hfields).
  rewrite Hdec in Hdec'. injection Hdec' as <-.
  rewrite Forall_forall in Hfields.
  specialize (Hfields (2%nat, 3%nat, order_id)).
  cbv beta iota in Hfields. rewrite Hfields by (cbn; auto).
  unfold slice. cbn [Nat.sub].
  destruct (length line <? 210)%nat.
  - unfold ljust. now rewrite (get_substring_one 2 line _ c Hget).
  - rewrite <- (get_substring_one 2 line "" c Hget). f_equal.
    f_equal. clear. induction line as [|a l IH]; [reflexivity |].
    cbn [append]. now rewrite <- IH.
Qed.

(** What the line loop appends: records of order lines only, at most one
    per line, whatever the parser held. *)
Lemma parse_lines_appends (lines : list string) (self : Parser) :
  exists new,
    orders (fst (parse_lines lines self)) = (orders self ++ new)%list
    /\ filename (fst (parse_lines lines self)) = filename self
    /\ extracted_order_number (fst (parse_lines lines self))
       = extracted_order_number self
    /\ Forall (fun order => order_id order = "1") new
    /\ (List.length new <= List.length lines)%nat
    /\ forall other,
         orders (fst (parse_lines lines other)) = (orders other ++ new)%list.
Proof.
  revert self. induction lines as [|line rest IH]; intros self.
  - exists []. cbn. rewrite app_nil_r. repeat split; auto.
    intros other. now rewrite app_nil_r.
  - assert (exists new,
              orders (fst (parse_lines rest self)) = (orders self ++ new)%list
              /\ filename (fst (parse_lines rest self)) = filename self
              /\ extracted_order_number (fst (parse_lines rest self))
                 = extracted_order_number self
              /\ Forall (fun order => order_id order = "1") new
              /\ (List.length new <= List.length (line :: rest))%nat
              /\ forall other,
                   orders (fst (parse_lines rest other))
                   = (orders other ++ new)%list) as Hskip.
    { destruct (IH self) as (new & H1 & H2 & H3 & H4 & H5 & H6).
      exists new. cbn [List.length]. repeat split; auto. }
    cbn [parse_lines]. destruct (strip line); [exact Hskip |].
    destruct (Nat.leb_spec 3 (length line)) as [Hlen | Hlen];
      [| exact Hskip].
    destruct (get_in_range 2 line) as [c Hget]; [lia |]. rewrite Hget.
    destruct (Ascii.eqb_spec c "1") as [-> | Hc]; [| exact Hskip].
    destruct (_parse_order_record_returns line) as [[order |] Hdec];
      rewrite Hdec; [| exact Hskip].
    destruct (IH (orders_append self order))
      as (new & H1 & H2 & H3 & H4 & H5 & H6).
    exists (order :: new). cbn [orders_append orders filename
                               extracted_order_number] in *.
    rewrite <- app_assoc in H1. cbn [app] in H1.
    split; [exact H1 |]. split; [exact H2 |]. split; [exact H3 |].
    split; [constructor; [| exact H4] |].
    { now rewrite (decoded_order_id line "1" order Hget Hdec). }
    split; [cbn [List.length]; lia |].
    intros other. rewrite (H6 (orders_append other order)).
    cbn [orders_append orders]. now rewrite <- app_assoc.
Qed.

Lemma extract_order_number_state (now : datetime) (self other : Parser)
    (file_path : string) :
  extract_order_number_from_filename now other file_path
  = (set_filename other (basename file_path),
     snd (extract_order_number_from_filename now self file_path)).
Proof.
  unfold extract_order_number_from_filename.
  destruct (re_search match_kcb _);
    [| destruct (re_search match_digits_3_6 _)]; reflexivity.
Qed.

(** The parser [parse_file] leaves is the one its line loop leaves. *)
Lemma parse_file_state (now : datetime) (self : Parser) (file_path : string)
    (readlines : list string) :
  fst (parse_file now self file_path readlines)
  = fst (parse_lines (map (rstrip_chars is_newline) readlines)
           (set_extracted_order_number
              (set_filename self (basename file_path))
              (snd (extract_order_number_from_filename now self file_path)))).
Proof.
  unfold parse_file.
  rewrite (extract_order_number_state now self self).
  destruct (parse_lines _ _) as [self2 [u | e]]; [| reflexivity].
  destruct (_expand_orders_with_books self2); reflexivity.
Qed.

(** [parse_file], step by step: the parser after the call and the two
    possible results. *)
Lemma parse_file_unfold (now : datetime) (self : Parser) (file_path : string)
    (readlines : list string) :
  let number := snd (extract_order_number_from_filename now self file_path) in
  let self' := fst (parse_file now self file_path readlines) in
  exists new,
    orders self' = (orders self ++ new)%list
    /\ filename self' = basename file_path
    /\ extracted_order_number self' = number
    /\ Forall (fun order => order_id order = "1") new
    /\ (List.length new <= List.length readlines)%nat
    /\ (forall other,
          orders (fst (parse_file now other file_path readlines))
          = (orders other ++ new)%list)
    /\ snd (parse_file now self file_path readlines)
       = match expand_loop (orders self') [] with
         | Ok expanded =>
             Ok {| Parsed.orders := orders self';
                   Parsed.expanded_orders := expanded;
                   Parsed.extracted_order_number := number |}
         | Raise e => Raise e
         end.
Proof.
  intros number self'.
  set (lines := map (rstrip_chars is_newline) readlines).
  set (start := set_extracted_order_number
                  (set_filename self (basename file_path)) number).
  destruct (parse_lines_appends lines start)
    as (new & H1 & H2 & H3 & H4 & H5 & H6).
  pose proof (parse_lines_returns lines start) as Hret.
  assert (self' = fst (parse_lines lines start)) as Hstate
    by apply parse_file_state.
  exists new. rewrite Hstate.
  split; [exact H1 |]. split; [exact H2 |]. split; [exact H3 |].
  split; [exact H4 |].
  split; [unfold lines in H5; now rewrite length_map in H5 |].
  split.
  - intros other. rewrite parse_file_state. fold lines.
    now rewrite (H6 (set_extracted_order_number
                       (set_filename other (basename file_path)) _)).
  - unfold parse_file.
    rewrite (extract_order_number_state now self self).
    fold number. fold lines. fold start.
    destruct (parse_lines lines start) as [self2 r].
    cbn [fst snd] in *. subst r. unfold _expand_orders_with_books.
    destruct (expand_loop (orders self2) []); cbn [snd]; [| reflexivity].
    now rewrite H3.
Qed.

Lemma expand_loop_raise_has_bad (todo : list OrderRecord) (e : exn) :
  expand_loop todo [] = Raise e ->
  exists order,
    In order todo /\ forall start, py_int (cheque_start_serial order) <> Ok start.
Proof.
  induction todo as [|order rest IH]; [discriminate |].
  rewrite expand_loop_cons.
  destruct (py_int (cheque_start_serial order)) as [start | e'] eqn:Hint;
    cbn [bind].
  - destruct (expand_loop rest []) as [books | e'']; cbn [bind];
      [discriminate |].
    intros Heq. destruct (IH Heq) as (bad & Hin & Hbad).
    exists bad. split; [now right | exact Hbad].
  - intros _. exists order. split; [now left |].
    intros start. now rewrite Hint.
Qed.

Lemma sum_app (l l' : list Z) :
  fold_right Z.add 0 (l ++ l')
  = fold_right Z.add 0 l + fold_right Z.add 0 l'.
Proof. induction l as [|x l IH]; cbn; [reflexivity | rewrite IH; lia]. Qed.

(** X4.  Every record [parse_file] adds to the parser comes from an order
    line: its [order_id] is ["1"]; and a file adds at most one record per
    line. *)
Theorem parsed_records_are_order_lines (now : datetime) (self : Parser)
    (file_path : string) (readlines : list string) :
  exists new,
    orders (fst (parse_file now self file_path readlines))
    = (orders self ++ new)%list
    /\ Forall (fun order => order_id order = "1") new
    /\ (List.length new <= List.length readlines)%nat.
Proof.
  destruct (parse_file_unfold now self file_path readlines)
    as (new & H1 & _ & _ & H4 & H5 & _).
  exists new. now repeat split.
Qed.

(** X5.  The line terminators do not matter: adding line feeds or carriage
    returns at the end of every line leaves the result of [parse_file]
    unchanged. *)
Theorem parse_file_ignores_line_ends (now : datetime) (self : Parser)
    (file_path eol : string) (readlines : list string) :
  all_chars is_newline eol = true ->
  parse_file now self file_path (map (fun line => line ++ eol) readlines)
  = parse_file now self file_path readlines.
Proof.
  intros Heol. unfold parse_file. rewrite map_map.
  rewrite (map_ext (fun line => rstrip_chars is_newline (line ++ eol))
             (rstrip_chars is_newline)); [reflexivity |].
  intros line. now apply rstrip_chars_app.
Qed.

Lemma parse_file_ignores_line_ends_witness :
  parse_file now0 __init__ "KCB-618.dat"
    (map (fun line => line ++ String "013" (String "010" ""))
         [order_line "01" "0002" "000001" "01320"])
  = parse_file now0 __init__ "KCB-618.dat"
      [order_line "01" "0002" "000001" "01320"].
Proof.
  apply (parse_file_ignores_line_ends now0 __init__ "KCB-618.dat"
           (String "013" (String "010" ""))).
  reflexivity.
Defined.

(** [parse_file] once the lines of the file have been read. *)
Lemma parse_file_after_reading (now : datetime) (self : Parser)
    (file_path : string) (readlines : list string) :
  let number := snd (extract_order_number_from_filename now self file_path) in
  let self' := fst (parse_file now self file_path readlines) in
  let result := snd (parse_file now self file_path readlines) in
  filename self' = basename file_path
  /\ extracted_order_number self' = number
  /\ ((forall order, In order (orders self') ->
         exists start, py_int (cheque_start_serial order) = Ok start)
      <-> exists expanded,
            result = Ok {| Parsed.orders := orders self';
                           Parsed.expanded_orders := expanded;
                           Parsed.extracted_order_number := number |})
  /\ ((exists order,
         In order (orders self')
         /\ forall start, py_int (cheque_start_serial order) <> Ok start)
      <-> result = Raise ValueError)
  /\ (forall e, result = Raise e -> e = ValueError).
Proof.
  intros number self' result.
  destruct (parse_file_unfold now self file_path readlines)
    as (new & _ & H2 & H3 & _ & _ & _ & Hres).
  fold number self' result in H2, H3, Hres.
  split; [exact H2 |]. split; [exact H3 |].
  destruct (expand_loop (orders self') []) as [expanded | e] eqn:Hexp.
  - split; [| split].
    + split; [intros _; now exists expanded |].
      intros _. exact (expand_loop_ok_parses _ _ Hexp).
    + split; [| rewrite Hres; discriminate].
      intros (order & Hin & Hbad).
      rewrite (expand_loop_bad_serial _ order Hin Hbad) in Hexp.
      discriminate.
    + intros e. rewrite Hres. discriminate.
  - pose proof (expand_loop_raises _ _ Hexp) as ->.
    split; [| split].
    + split; [| intros [expanded Hok]; rewrite Hres in Hok; discriminate].
      intros Hall. destruct (expand_loop_all_parse _ Hall) as (? & _ & Hok).
      rewrite Hok in Hexp. discriminate.
    + split; [intros _; exact Hres |].
      intros _. exact (expand_loop_raise_has_bad _ _ Hexp).
    + intros e. rewrite Hres. now intros [= <-].
Qed.

(** X6.  The outcomes of [parse_file], the reading of the file
    included.  An exception raised by [open] or [readlines] leaves
    [parse_file] as it is, with the orders of the parser untouched.  Once
    the lines are read, [parse_file] returns exactly when the start serial
    of every order the parser then holds reads as an integer, with those
    orders and the order number of the file name; it raises [ValueError]
    exactly when one of them does not, and the steps after the reading
    raise nothing else.  In every case the parser keeps the base name of
    the path and the order number, which are set before the file is
    opened. *)
Theorem parse_file_outcome {E : Type} (now : datetime) (self : Parser)
    (file_path : string) (read : E + list string) :
  let number := snd (extract_order_number_from_filename now self file_path) in
  let self' := fst (parse_file_read now self file_path read) in
  let result := snd (parse_file_read now self file_path read) in
  filename self' = basename file_path
  /\ extracted_order_number self' = number
  /\ (forall e, result = inl e <-> read = inl e)
  /\ (forall e, read = inl e -> orders self' = orders self)
  /\ ((exists readlines, read = inr readlines)
      /\ (forall order, In order (orders self') ->
            exists start, py_int (cheque_start_serial order) = Ok start)
      <-> exists expanded,
            result = inr (Ok {| Parsed.orders := orders self';
                                Parsed.expanded_orders := expanded;
                                Parsed.extracted_order_number := number |}))
  /\ ((exists readlines, read = inr readlines)
      /\ (exists order,
            In order (orders self')
            /\ forall start, py_int (cheque_start_serial order) <> Ok start)
      <-> result = inr (Raise ValueError))
  /\ (forall e, result = inr (Raise e) -> e = ValueError).
Proof.
  intros number self' result. subst self' result.
  destruct read as [e0 | readlines].
  - unfold parse_file_read.
    rewrite (extract_order_number_state now self self). fold number.
    cbn [fst snd set_extracted_order_number set_filename filename
         extracted_order_number orders].
    split; [reflexivity |]. split; [reflexivity |].
    split; [intros e; split; intros [= ->]; reflexivity |].
    split; [reflexivity |].
    split; [split; [intros [[l Hl] _]; discriminate
                   | intros [x Hx]; discriminate] |].
    split; [split; [intros [[l Hl] _]; discriminate | discriminate] |].
    discriminate.
  - pose proof (parse_file_after_reading now self file_path readlines)
      as (H1 & H2 & H3 & H4 & H5).
    fold number in H1, H2, H3, H4, H5.
    unfold parse_file_read.
    destruct (parse_file now self file_path readlines) as [self' r].
    cbn [fst snd] in *.
    split; [exact H1 |]. split; [exact H2 |].
    split; [intros e; split; discriminate |].
    split; [discriminate |].
    split; [| split].
    + split.
      * intros [_ Hall]. destruct (proj1 H3 Hall) as [expanded ->].
        now exists expanded.
      * intros [expanded [= Hr]]. split; [now exists readlines |].
        apply H3. now exists expanded.
    + split.
      * intros [_ Hbad]. now rewrite (proj1 H4 Hbad).
      * intros [= Hr]. split; [now exists readlines | now apply H4].
    + intros e [= Hr]. now apply H5.
Qed.

(** X17.  What [parse_file] adds to the parser does not depend on what the
    parser held: the orders after the call are the orders before it
    followed by the orders a new parser reads from the same file, and the
    [total_orders] and [total_books] of the metadata add up in the same
    way. *)
Theorem parse_file_appends_what_new_parser_reads (now : datetime)
    (self : Parser) (file_path : string) (readlines : list string) :
  let self' := fst (parse_file now self file_path readlines) in
  let alone := fst (parse_file now __init__ file_path readlines) in
  orders self' = (orders self ++ orders alone)%list
  /\ Metadata.total_orders (get_file_metadata now self')
     = Metadata.total_orders (get_file_metadata now self)
       + Metadata.total_orders (get_file_metadata now alone)
  /\ Metadata.total_books (get_file_metadata now self')
     = Metadata.total_books (get_file_metadata now self)
       + Metadata.total_books (get_file_metadata now alone).
Proof.
  intros self' alone.
  destruct (parse_file_unfold now self file_path readlines)
    as (new & H1 & _ & _ & _ & _ & Hother & _).
  fold self' in H1.
  assert (orders alone = new) as Halone by apply (Hother __init__).
  assert (orders self' = (orders self ++ orders alone)%list) as Horders
    by now rewrite Halone.
  split; [exact Horders |].
  cbn [get_file_metadata Metadata.total_orders Metadata.total_books].
  rewrite Horders, !sum_number_of_books_spec, map_app, sum_app,
    List.length_app.
  split; lia.
Qed.

End ParseFileFacts.

(** * Further properties of the order number *)

Section OrderNumberFacts.

Import DATFileParser Samples.

Lemma span_digits_digits (s : string) :
  all_chars is_digit (span_digits s) = true.
Proof.
  induction s as [|c s IH]; [reflexivity |].
  cbn [span_digits]. destruct (is_digit c) eqn:Hc; [| reflexivity].
  cbn [all_chars]. now rewrite Hc.
Qed.

Lemma take_digits_digits (n : nat) (s : string) :
  all_chars is_digit (take_digits n s) = true.
Proof.
  revert s. induction n as [|n IH]; intros s; [reflexivity |].
  destruct s as [|c s]; [reflexivity |].
  cbn [take_digits]. destruct (is_digit c) eqn:Hc; [| reflexivity].
  cbn [all_chars]. now rewrite Hc, IH.
Qed.

Lemma match_kcb_digits (s g : string) :
  match_kcb s = Some g -> all_chars is_digit g = true.
Proof.
  unfold match_kcb.
  destruct s as [|k [|c [|b [|d r]]]]; try discriminate.
  destruct (_ && _ && _ && _)%bool; [| discriminate].
  pose proof (span_digits_digits r) as Hr.
  destruct (span_digits r); [discriminate |]. now intros [= <-].
Qed.

Lemma match_digits_3_6_digits (s g : string) :
  match_digits_3_6 s = Some g -> all_chars is_digit g = true.
Proof.
  unfold match_digits_3_6. cbv zeta.
  destruct (3 <=? length (take_digits 6 s))%nat; [| discriminate].
  intros H. assert (take_digits 6 s = g) as <- by congruence.
  apply take_digits_digits.
Qed.

Lemma zfill_digits (w : nat) (s : string) :
  all_chars is_digit s = true -> all_chars is_digit (zfill w s) = true.
Proof.
  intros Hs. destruct s as [|c r].
  - unfold zfill. destruct (w <=? length "")%nat; [reflexivity |].
    now apply all_chars_repeat.
  - cbn [all_chars] in Hs. apply andb_prop in Hs as [Hc Hr].
    rewrite zfill_unsigned by now exists c, r.
    rewrite all_chars_app, all_chars_repeat by reflexivity.
    cbn [all_chars]. now rewrite Hc, Hr.
Qed.

Lemma py_str_digits (z : Z) :
  0 <= z -> all_chars is_digit (py_str z) = true.
Proof.
  intros Hz. unfold py_str. destruct (Z.ltb_spec z 0); [lia |].
  now apply str_digits_all_digits.
Qed.

Lemma strftime_mdH_digits (now : datetime) :
  valid_datetime now -> all_chars is_digit (strftime_mdH now) = true.
Proof.
  intros (_ & Hm & Hd & Hh). unfold strftime_mdH.
  rewrite !all_chars_app, !zfill_digits; [reflexivity | | |];
    apply py_str_digits; lia.
Qed.

Lemma has_slash_app (s t : string) :
  has_slash (s ++ t) = (has_slash s || has_slash t)%bool.
Proof.
  induction s as [|c s IH]; [reflexivity |].
  cbn [append has_slash]. now rewrite IH, orb_assoc.
Qed.

Lemma basename_no_slash (s : string) : has_slash s = false -> basename s = s.
Proof.
  destruct s as [|c s]; [reflexivity |].
  cbn [has_slash basename]. now intros ->.
Qed.

Lemma basename_after_slash (dir name : string) :
  has_slash name = false -> basename (dir ++ String "/" name) = name.
Proof.
  intros Hname. induction dir as [|c dir IH]; cbn [append basename].
  - now apply basename_no_slash.
  - rewrite has_slash_app. cbn [has_slash]. cbn [Ascii.eqb Bool.eqb orb].
    now rewrite !orb_true_r.
Qed.

(** X7.  With a clock in range, the order number of a file is made of
    decimal digits only. *)
Theorem order_number_is_numeric (now : datetime) (self : Parser)
    (file_path : string) :
  valid_datetime now ->
  all_chars is_digit
    (snd (extract_order_number_from_filename now self file_path)) = true.
Proof.
  intros Hnow. unfold extract_order_number_from_filename.
  destruct (re_search match_kcb (basename file_path)) as [g |] eqn:Hkcb;
    cbn [snd].
  - apply re_search_found in Hkcb as (pre & post & _ & Hm).
    apply zfill_digits. exact (match_kcb_digits _ _ Hm).
  - destruct (re_search match_digits_3_6 (basename file_path))
      as [g |] eqn:Hdig; cbn [snd].
    + apply re_search_found in Hdig as (pre & post & _ & Hm).
      apply zfill_digits. exact (match_digits_3_6_digits _ _ Hm).
    + apply zfill_digits. now apply strftime_mdH_digits.
Qed.

Lemma order_number_is_numeric_witness :
  all_chars is_digit
    (snd (extract_order_number_from_filename now0 __init__ "noop.dat")) = true.
Proof.
  apply (order_number_is_numeric now0 __init__ "noop.dat").
  unfold valid_datetime. simpl. lia.
Defined.

(** X8.  Only the base name of the path counts: the directories in front
    of the last slash change neither the order number nor the file name
    the parser keeps, even when they hold [KCB-] or digits themselves. *)
Theorem order_number_ignores_directories (now : datetime) (self : Parser)
    (dir name : string) :
  has_slash name = false ->
  extract_order_number_from_filename now self (dir ++ String "/" name)
  = extract_order_number_from_filename now self name
  /\ filename (fst (extract_order_number_from_filename now self
                      (dir ++ String "/" name))) = name.
Proof.
  intros Hname. unfold extract_order_number_from_filename.
  rewrite (basename_after_slash dir name Hname),
    (basename_no_slash name Hname).
  split; [reflexivity |].
  destruct (re_search match_kcb name);
    [| destruct (re_search match_digits_3_6 name)]; reflexivity.
Qed.

Lemma order_number_ignores_directories_witness :
  extract_order_number_from_filename now0 __init__ "in/KCB-999/Report_042.dat"
  = extract_order_number_from_filename now0 __init__ "Report_042.dat"
  /\ snd (extract_order_number_from_filename now0 __init__
            "in/KCB-999/Report_042.dat") = "000042".
Proof.
  split; [| reflexivity].
  apply (order_number_ignores_directories now0 __init__ "in/KCB-999"
           "Report_042.dat").
  reflexivity.
Defined.

End OrderNumberFacts.

(** * Further properties of the expansion *)

Section ExpansionFacts.

Import DATFileParser PackingListGenerator Samples.

(** The two tables agree: the serial step of a style is its number of
    leaves, with the same default, and it is 50 or 100. *)
Lemma increment_is_leaves (style : string) :
  dict_get SERIAL_INCREMENTS style 50
  = match dict_lookup BOOK_STYLES style with
    | Some info => leaves info
    | None => 50
    end
  /\ (dict_get SERIAL_INCREMENTS style 50 = 50
      \/ dict_get SERIAL_INCREMENTS style 50 = 100).
Proof.
  unfold dict_get, SERIAL_INCREMENTS, BOOK_STYLES. cbn [dict_lookup].
  repeat (destruct (String.eqb _ style); [split; [reflexivity | auto] |]).
  split; [reflexivity | auto].
Qed.

Lemma order_books_nth_serial (order : OrderRecord) (start : Z) (k : nat)
    (book : Book.t) :
  py_int (cheque_start_serial order) = Ok start ->
  nth_error (order_books order start) k = Some book ->
  py_int (Book.serial_number book)
  = Ok (start + Z.of_nat k * dict_get SERIAL_INCREMENTS (book_style order) 50)
  /\ Book.leaves book = dict_get SERIAL_INCREMENTS (book_style order) 50
  /\ Book.delivery_branch_code book = delivery_branch_code order.
Proof.
  intros Hstart Hk. apply order_books_nth in Hk.
  destruct (increment_is_leaves (book_style order)) as [Hleaves _].
  destruct k as [|k]; subst book;
    cbn [_order_to_dict Book.serial_number Book.leaves
         Book.delivery_branch_code].
  - rewrite Hstart, Hleaves. repeat split. f_equal. lia.
  - rewrite py_int_zfill_py_str, Hleaves. repeat split.
Qed.

(** X9.  The serial step of every order is the number of leaves of its
    books, 50 or 100 whatever the style: each book of an order starts
    where the leaves of the book before it end. *)
Theorem next_serial_follows_leaves (self : Parser) (order : OrderRecord)
    (start : Z) :
  orders self = [order] ->
  py_int (cheque_start_serial order) = Ok start ->
  exists books,
    _expand_orders_with_books self = Ok books
    /\ (forall book, In book books ->
          Book.leaves book = 50 \/ Book.leaves book = 100)
    /\ forall k book next,
         nth_error books k = Some book ->
         nth_error books (S k) = Some next ->
         exists serial,
           py_int (Book.serial_number book) = Ok serial
           /\ py_int (Book.serial_number next)
              = Ok (serial + Book.leaves book).
Proof.
  intros Hself Hstart. exists (order_books order start).
  split.
  { unfold _expand_orders_with_books.
    now rewrite Hself, expand_loop_single, Hstart. }
  split.
  - intros book Hin. apply In_nth_error in Hin as [k Hk].
    destruct (order_books_nth_serial order start k book Hstart Hk)
      as (_ & -> & _).
    apply increment_is_leaves.
  - intros k book next Hk Hnext.
    destruct (order_books_nth_serial order start k book Hstart Hk)
      as (Hs & Hl & _).
    destruct (order_books_nth_serial order start (S k) next Hstart Hnext)
      as (Hs' & _ & _).
    eexists. split; [exact Hs |]. rewrite Hs', Hl. f_equal. lia.
Qed.

Lemma next_serial_follows_leaves_witness :
  exists books,
    _expand_orders_with_books (parser_with [good_order]) = Ok books
    /\ (forall book, In book books ->
          Book.leaves book = 50 \/ Book.leaves book = 100)
    /\ forall k book next,
         nth_error books k = Some book ->
         nth_error books (S k) = Some next ->
         exists serial,
           py_int (Book.serial_number book) = Ok serial
           /\ py_int (Book.serial_number next)
              = Ok (serial + Book.leaves book).
Proof.
  apply (next_serial_follows_leaves (parser_with [good_order]) good_order 1);
    reflexivity.
Defined.

(** The packing lists of a list of books, one by one. *)
Lemma generate_packing_lists_facts (expanded_orders : list Book.t)
    (order_number order_date : string) :
  exists packing_lists,
    generate_packing_lists expanded_orders order_number order_date
    = Ok packing_lists
    /\ (forall p,
          In p packing_lists ->
          exists first others,
            filter (fun book =>
                      String.eqb (strip (Book.delivery_branch_code book))
                                 (PackingList.delivery_branch_code p))
                   expanded_orders = first :: others
            /\ PackingList.delivery_branch_code p <> ""
            /\ PackingList.bank_name p = bank_name
            /\ PackingList.order_number p = order_number
            /\ PackingList.order_date p = order_date
            /\ PackingList.delivery_branch_name p
               = strip (Book.delivery_branch_name first)
            /\ PackingList.total_books p
               = Z.of_nat (List.length (first :: others))
            /\ PackingList.books p = map book_entry (first :: others))
    /\ (forall book,
          In book expanded_orders ->
          strip (Book.delivery_branch_code book) <> "" ->
          exists p,
            In p packing_lists
            /\ PackingList.delivery_branch_code p
               = strip (Book.delivery_branch_code book)).
Proof.
  destruct (generate_packing_lists_spec expanded_orders order_number order_date)
    as (packing_lists & Hgen & Hall).
  destruct (group_books_spec expanded_orders) as (Hnd & _ & Hlook).
  cbv zeta in Hall, Hnd, Hlook.
  set (grouped := group_books_by_delivery_branch expanded_orders) in *.
  pose proof (sorted_perm String.ltb (dict_keys grouped)) as Hperm.
  exists packing_lists. split; [exact Hgen |]. split.
  - intros p Hp.
    destruct (Forall2_In_r _ _ _ _ Hall Hp)
      as (k & Hk & first & others & Hgroup & ->).
    cbn [PackingList.delivery_branch_code PackingList.bank_name
         PackingList.order_number PackingList.order_date
         PackingList.delivery_branch_name PackingList.total_books
         PackingList.books].
    rewrite Hlook in Hgroup.
    destruct (String.eqb k "") eqn:Hne; [discriminate Hgroup |].
    apply String.eqb_neq in Hne.
    destruct (filter
                (fun b0 =>
                   String.eqb (strip (Book.delivery_branch_code b0)) k)
                expanded_orders) as [|b bs]; [discriminate Hgroup |].
    injection Hgroup as <- <-. exists b, bs. now repeat split.
  - intros book Hin Hcode.
    set (k := strip (Book.delivery_branch_code book)) in *.
    assert (In k (sorted String.ltb (dict_keys grouped))) as Hk.
    { apply (Permutation_in _ (Permutation_sym Hperm)).
      apply dict_keys_lookup. rewrite Hlook.
      destruct (String.eqb_spec k ""); [contradiction |].
      destruct (filter _ expanded_orders) as [|first others] eqn:Hf;
        [| now eexists].
      assert (In book []) as [].
      rewrite <- Hf. apply filter_In. split; [exact Hin |].
      apply String.eqb_refl. }
    destruct (Forall2_In_l _ _ _ _ Hall Hk)
      as (p & Hp & first & others & _ & ->).
    eexists. split; [exact Hp | reflexivity].
Qed.

End ExpansionFacts.

(** * From orders to packing lists *)

Section OrdersToPackingLists.

Import DATFileParser PackingListGenerator PackingListPDFMapper Samples.

Lemma filter_constant {A : Type} (f : A -> bool) (c : bool) (l : list A) :
  Forall (fun x => f x = c) l -> filter f l = if c then l else [].
Proof.
  induction 1 as [|x l Hx _ IH]; [now destruct c |].
  cbn [filter]. rewrite Hx, IH. now destruct c.
Qed.

Lemma order_books_code (order : OrderRecord) (start : Z) :
  Forall (fun book =>
            Book.delivery_branch_code book = delivery_branch_code order)
         (order_books order start).
Proof.
  rewrite order_books_spec. constructor; [reflexivity |].
  apply Forall_forall. intros book Hin.
  apply in_map_iff in Hin as (i & <- & _). reflexivity.
Qed.

(** The books of an order pass a test on the stripped delivery code all
    together or not at all. *)
Lemma filter_order_books (q : string -> bool) (order : OrderRecord)
    (start : Z) :
  filter (fun book => q (strip (Book.delivery_branch_code book)))
         (order_books order start)
  = if q (strip (delivery_branch_code order))
    then order_books order start else [].
Proof.
  apply filter_constant. generalize (order_books_code order start).
  apply Forall_impl. now intros book ->.
Qed.

Lemma expanded_by_code (q : string -> bool) (todo : list OrderRecord)
    (per_order : list (list Book.t)) :
  Forall2 (fun order books =>
             exists start,
               py_int (cheque_start_serial order) = Ok start
               /\ books = order_books order start)
          todo per_order ->
  Z.of_nat
    (List.length
       (filter (fun book => q (strip (Book.delivery_branch_code book)))
               (List.concat per_order)))
  = fold_right Z.add 0
      (map (fun order => Z.max (number_of_books order) 1)
           (filter (fun order => q (strip (delivery_branch_code order)))
                   todo)).
Proof.
  induction 1 as [|order books todo per_order (start & _ & ->) _ IH];
    [reflexivity |].
  cbn [List.concat filter]. rewrite filter_app, List.length_app,
    filter_order_books.
  destruct (q (strip (delivery_branch_code order))); cbn [map fold_right].
  - rewrite order_books_length. lia.
  - cbn [List.length]. lia.
Qed.

(** X10.  From the orders to the pages: when every start serial reads as
    an integer, the [total_books] of the packing list of a branch is the
    sum of [max(numberOfBooks, 1)] over the orders whose stripped delivery
    code is that branch, and every order with a delivery code has the
    packing list of its branch. *)
Theorem branch_total_from_orders (self : Parser)
    (order_number order_date : string) :
  (forall order, In order (orders self) ->
     exists start, py_int (cheque_start_serial order) = Ok start) ->
  exists expanded packing_lists,
    _expand_orders_with_books self = Ok expanded
    /\ generate_packing_lists expanded order_number order_date
       = Ok packing_lists
    /\ (forall p,
          In p packing_lists ->
          PackingList.total_books p
          = fold_right Z.add 0
              (map (fun order => Z.max (number_of_books order) 1)
                   (filter
                      (fun order =>
                         String.eqb (strip (delivery_branch_code order))
                                    (PackingList.delivery_branch_code p))
                      (orders self))))
    /\ (forall order,
          In order (orders self) ->
          strip (delivery_branch_code order) <> "" ->
          exists p,
            In p packing_lists
            /\ PackingList.delivery_branch_code p
               = strip (delivery_branch_code order)).
Proof.
  intros Hall.
  destruct (expand_loop_all_parse (orders self) Hall)
    as (per_order & Hper & Hexp).
  destruct (generate_packing_lists_facts (List.concat per_order)
              order_number order_date) as (packing_lists & Hgen & Hp & Hcode).
  exists (List.concat per_order), packing_lists.
  split; [exact Hexp |]. split; [exact Hgen |]. split.
  - intros p Hin.
    destruct (Hp p Hin) as (first & others & Hf & _ & _ & _ & _ & _ & -> & _).
    rewrite <- Hf.
    exact (expanded_by_code
             (fun k => String.eqb k (PackingList.delivery_branch_code p))
             _ _ Hper).
  - intros order Hin Hne.
    destruct (Forall2_In_l _ _ _ _ Hper Hin)
      as (books & Hbooks & start & _ & ->).
    apply (Hcode (_order_to_dict order (cheque_start_serial order))).
    + apply in_concat. exists (order_books order start).
      split; [exact Hbooks |]. rewrite order_books_spec. now left.
    + exact Hne.
Qed.

Lemma branch_total_from_orders_witness :
  exists expanded packing_lists,
    _expand_orders_with_books (parser_with [zero_order; good_order])
    = Ok expanded
    /\ generate_packing_lists expanded "KCB-000618" "2025-09-29"
       = Ok packing_lists
    /\ List.length packing_lists = 2%nat.
Proof.
  destruct (branch_total_from_orders (parser_with [zero_order; good_order])
              "KCB-000618" "2025-09-29")
    as (expanded & packing_lists & Hexp & Hgen & _).
  - intros order [<- | [<- | []]]; eexists; vm_compute; reflexivity.
  - exists expanded, packing_lists. split; [exact Hexp |].
    split; [exact Hgen |].
    vm_compute in Hexp. injection Hexp as <-.
    vm_compute in Hgen. injection Hgen as <-. reflexivity.
Defined.

(** X11.  The name on the packing list of a branch is the stripped
    delivery branch name of the first book, in input order, that is
    delivered to the branch; the names of the later books are not
    looked at. *)
Theorem branch_name_from_first_book (expanded_orders : list Book.t)
    (order_number order_date : string) :
  exists packing_lists,
    generate_packing_lists expanded_orders order_number order_date
    = Ok packing_lists
    /\ forall p,
         In p packing_lists ->
         exists first others,
           filter (fun book =>
                     String.eqb (strip (Book.delivery_branch_code book))
                                (PackingList.delivery_branch_code p))
                  expanded_orders = first :: others
           /\ PackingList.delivery_branch_name p
              = strip (Book.delivery_branch_name first).
Proof.
  destruct (generate_packing_lists_facts expanded_orders order_number
              order_date) as (packing_lists & Hgen & Hp & _).
  exists packing_lists. split; [exact Hgen |].
  intros p Hin.
  destruct (Hp p Hin) as (first & others & Hf & _ & _ & _ & _ & Hname & _).
  now exists first, others.
Qed.

(** X12.  [generate_packing_lists] returns the empty list exactly when no
    book has a delivery code: on the empty input, and when every delivery
    code is blank. *)
Theorem no_packing_list_without_codes (expanded_orders : list Book.t)
    (order_number order_date : string) :
  generate_packing_lists expanded_orders order_number order_date = Ok []
  <-> forall book,
        In book expanded_orders ->
        strip (Book.delivery_branch_code book) = "".
Proof.
  destruct (generate_packing_lists_facts expanded_orders order_number
              order_date) as (packing_lists & Hgen & Hp & Hcode).
  rewrite Hgen. split.
  - intros [= ->] book Hin.
    destruct (String.eqb_spec (strip (Book.delivery_branch_code book)) "")
      as [Hblank | Hne]; [exact Hblank |].
    destruct (Hcode book Hin Hne) as (p & [] & _).
  - intros Hblank. destruct packing_lists as [|p rest]; [reflexivity |].
    destruct (Hp p (or_introl eq_refl)) as (first & others & Hf & Hne & _).
    assert (In first (first :: others)) as Hin by now left.
    rewrite <- Hf in Hin. apply filter_In in Hin as [Hin Heq].
    apply String.eqb_eq in Heq. rewrite (Hblank first Hin) in Heq.
    now elim Hne.
Qed.

End OrdersToPackingLists.

(** * The tables of a page *)

Section SortStability.

Context {A : Type} (before : A -> A -> bool) (p : A -> bool).

(** Two elements that both pass [p] are never moved past each other. *)
Hypothesis before_excludes :
  forall x y, before y x = true -> p x = true -> p y = true -> False.

Lemma filter_insert_sorted (x : A) (l : list A) :
  filter p (insert_sorted before x l) = filter p (x :: l).
Proof.
  induction l as [|y r IH]; [reflexivity |].
  cbn [insert_sorted]. destruct (before y x) eqn:Hyx; [| reflexivity].
  cbn [filter] in *. rewrite IH.
  destruct (p x) eqn:Hx, (p y) eqn:Hy; try reflexivity.
  now elim (before_excludes x y).
Qed.

Lemma filter_sorted (l : list A) : filter p (sorted before l) = filter p l.
Proof.
  induction l as [|x l IH]; [reflexivity |].
  cbn [sorted fold_right]. fold (sorted before l).
  rewrite filter_insert_sorted. cbn [filter]. now rewrite IH.
Qed.

End SortStability.

Section PageTables.

Import PackingListGenerator PackingListPDFMapper Samples.

Lemma filter_map_commute {A B : Type} (f : B -> bool) (g : A -> B)
    (l : list A) :
  filter f (map g l) = map g (filter (fun x => f (g x)) l).
Proof.
  induction l as [|x l IH]; [reflexivity |].
  cbn [map filter]. rewrite IH. now destruct (f (g x)).
Qed.

(** X14.  The sort of the books table is stable: the rows of one book
    style are the books of that style in the order the packing list holds
    them. *)
Theorem books_table_keeps_order_within_style (books : list Entry.t)
    (delivery_branch_name style : string) :
  filter (fun row => String.eqb (row_book_style row) style)
         (_create_books_table books delivery_branch_name)
  = map (book_row delivery_branch_name)
        (filter (fun book => String.eqb (Entry.book_style book) style) books).
Proof.
  unfold _create_books_table. rewrite filter_map_commute.
  cbn [book_row row_book_style]. f_equal.
  apply filter_sorted. intros x y Hlt Hx Hy.
  apply String.eqb_eq in Hx, Hy. rewrite Hx, Hy, ltb_irrefl in Hlt.
  discriminate.
Qed.

Lemma counter_lookup_add (counts : dict Z) (k k' : string) :
  dict_lookup (counter_add counts k) k'
  = if String.eqb k k'
    then Some (match dict_lookup counts k with
               | Some n => n + 1
               | None => 1
               end)
    else dict_lookup counts k'.
Proof.
  induction counts as [|[k0 n] r IH]; cbn [counter_add dict_lookup].
  - reflexivity.
  - destruct (String.eqb_spec k0 k) as [-> | Hk0]; cbn [dict_lookup].
    + destruct (String.eqb_spec k k'); reflexivity.
    + destruct (String.eqb_spec k0 k') as [-> | Hk0'].
      * destruct (String.eqb_spec k k'); [congruence | reflexivity].
      * exact IH.
Qed.

Lemma counter_keys_add (counts : dict Z) (k k' : string) :
  In k' (dict_keys (counter_add counts k)) <-> k' = k \/ In k' (dict_keys counts).
Proof.
  induction counts as [|[k0 n] r IH]; cbn [counter_add dict_keys map fst In].
  - intuition.
  - destruct (String.eqb_spec k0 k) as [-> | Hk0];
      cbn [dict_keys map fst In].
    + intuition.
    + fold (dict_keys (counter_add r k)). fold (dict_keys r).
      rewrite IH. intuition.
Qed.

Lemma counter_keys_add_NoDup (counts : dict Z) (k : string) :
  NoDup (dict_keys counts) -> NoDup (dict_keys (counter_add counts k)).
Proof.
  induction counts as [|[k0 n] r IH]; cbn [counter_add dict_keys map fst].
  - intros _. repeat constructor. intros [].
  - intros Hnd. apply NoDup_cons_iff in Hnd as [Hk0 Hr].
    destruct (String.eqb_spec k0 k) as [-> | Hne];
      cbn [dict_keys map fst].
    + now constructor.
    + constructor; [| now apply IH].
      fold (dict_keys (counter_add r k)).
      rewrite counter_keys_add. intros [-> | Hin]; [congruence |].
      now apply Hk0.
Qed.

Lemma counter_sum_add (counts : dict Z) (k : string) :
  fold_right Z.add 0 (map snd (counter_add counts k))
  = fold_right Z.add 0 (map snd counts) + 1.
Proof.
  induction counts as [|[k0 n] r IH]; cbn [counter_add map fold_right snd].
  - reflexivity.
  - destruct (String.eqb k0 k); cbn [map fold_right snd]; [lia |].
    rewrite IH. lia.
Qed.

(** What the counter holds after the keys [seen]. *)
Let counted (counts : dict Z) (seen : list string) : Prop :=
  NoDup (dict_keys counts)
  /\ fold_right Z.add 0 (map snd counts) = Z.of_nat (List.length seen)
  /\ forall k,
       dict_lookup counts k
       = match filter (String.eqb k) seen with
         | [] => None
         | l => Some (Z.of_nat (List.length l))
         end.

Lemma counted_add (counts : dict Z) (seen : list string) (k : string) :
  counted counts seen -> counted (counter_add counts k) (seen ++ [k])%list.
Proof.
  intros (Hnd & Hsum & Hlook). split; [| split].
  - now apply counter_keys_add_NoDup.
  - rewrite counter_sum_add, Hsum, List.length_app. cbn [List.length]. lia.
  - intros k'. rewrite counter_lookup_add, !Hlook, filter_app.
    cbn [filter].
    destruct (String.eqb_spec k k') as [<- | Hne].
    + rewrite String.eqb_refl.
      destruct (filter (String.eqb k) seen) as [|x l]; [reflexivity |].
      cbn [app]. rewrite !length_cons, List.length_app. cbn [List.length].
      f_equal. lia.
    + destruct (String.eqb_spec k' k); [congruence |].
      now rewrite app_nil_r.
Qed.

Lemma Counter_spec (keys : list string) :
  NoDup (dict_keys (Counter keys))
  /\ fold_right Z.add 0 (map snd (Counter keys))
     = Z.of_nat (List.length keys)
  /\ forall k,
       dict_lookup (Counter keys) k
       = match filter (String.eqb k) keys with
         | [] => None
         | l => Some (Z.of_nat (List.length l))
         end.
Proof.
  assert (forall seen counts,
            counted counts seen ->
            counted (fold_left counter_add keys counts) (seen ++ keys)%list)
    as Hfold.
  { induction keys as [|k rest IH]; intros seen counts H.
    - now rewrite app_nil_r.
    - cbn [fold_left].
      replace (seen ++ k :: rest)%list with ((seen ++ [k]) ++ rest)%list
        by now rewrite <- app_assoc.
      now apply IH, counted_add. }
  apply (Hfold [] []). split; [constructor |]. split; reflexivity.
Qed.

Lemma fold_left_add (l : list Z) :
  fold_left Z.add l 0 = fold_right Z.add 0 l.
Proof.
  pose proof (fold_left_sum (fun x => x) l 0) as H.
  rewrite map_id, Z.add_0_l in H. exact H.
Qed.

Lemma item_ltb_false (x y : string * Z) :
  item_ltb x y = false
  <-> String.ltb (fst x) (fst y) = false
      /\ (fst x = fst y -> snd y <= snd x).
Proof.
  unfold item_ltb. rewrite orb_false_iff, andb_false_iff.
  split; intros [Hlt Hrest]; (split; [exact Hlt |]).
  - intros Heq. destruct Hrest as [Hne | Hc].
    + apply String.eqb_neq in Hne. contradiction.
    + apply Z.ltb_ge in Hc. exact Hc.
  - destruct (String.eqb_spec (fst x) (fst y)) as [Heq | Hne];
      [| now left].
    right. apply Z.ltb_ge. now apply Hrest.
Qed.

Lemma item_ltb_asym (x y : string * Z) :
  item_ltb y x = true -> item_ltb x y = false.
Proof.
  unfold item_ltb at 1. intros H. apply item_ltb_false.
  apply orb_prop in H as [Hlt | Heq].
  - split; [now apply ltb_asym |].
    intros Hxy. rewrite Hxy, ltb_irrefl in Hlt. discriminate.
  - apply andb_prop in Heq as [Hs Hc].
    apply String.eqb_eq in Hs. apply Z.ltb_lt in Hc.
    split; [rewrite Hs; apply ltb_irrefl | intros _; lia].
Qed.

Lemma item_ltb_false_trans (x y z : string * Z) :
  item_ltb x y = false -> item_ltb y z = false -> item_ltb x z = false.
Proof.
  rewrite !item_ltb_false. intros [Hxy Hxy'] [Hyz Hyz']. split.
  - exact (ltb_false_trans _ _ _ Hyz Hxy).
  - intros Hxz. rewrite <- Hxz in Hyz.
    destruct (String.eqb_spec (fst x) (fst y)) as [Heq | Hne].
    + specialize (Hxy' Heq). rewrite <- Heq, Hxz in Hyz'.
      specialize (Hyz' eq_refl). lia.
    + pose proof (ltb_total _ _ Hxy Hne) as Hlt. congruence.
Qed.

Lemma dict_lookup_In {V : Type} (d : dict V) (k : string) (v : V) :
  NoDup (dict_keys d) -> In (k, v) d -> dict_lookup d k = Some v.
Proof.
  induction d as [|[k0 v0] r IH]; [intros _ [] |].
  cbn [dict_keys map fst dict_lookup]. intros Hnd Hin.
  apply NoDup_cons_iff in Hnd as [Hk0 Hr].
  destruct Hin as [[= -> ->] | Hin]; [now rewrite String.eqb_refl |].
  destruct (String.eqb_spec k0 k) as [-> | Hne]; [| now apply IH].
  elim Hk0. apply in_map_iff. now exists (k, v).
Qed.

Lemma descending_keys (items : list (string * Z)) :
  StronglySorted (fun x y => item_ltb x y = false) items ->
  NoDup (map fst items) ->
  StronglySorted (fun x y => String.ltb (fst y) (fst x) = true) items.
Proof.
  induction items as [|x l IH]; intros Hs Hnd; [constructor |].
  apply StronglySorted_inv in Hs as [Hl Hx].
  cbn [map] in Hnd. apply NoDup_cons_iff in Hnd as [Hnotin Hnd].
  constructor; [now apply IH |].
  rewrite Forall_forall in *. intros y Hy.
  pose proof (proj1 (item_ltb_false x y) (Hx y Hy)) as [Hlt _].
  apply ltb_total; [exact Hlt |].
  intros Heq. apply Hnotin. rewrite Heq. now apply in_map.
Qed.

(** X15.  The summary table of a page: below its header row, one row per
    book style of the page, in strictly descending order of the style, with
    the number of books of that style, at least 1; and last the row
    [TOTAL] with the number of books of the page. *)
Theorem summary_table_counts_styles (books : list Entry.t) :
  exists style_counts : list (string * Z),
    _create_book_style_summary_table books
    = ([["Book Style"; "Number of Books"]]
       ++ map (fun '(book_style, count) => [book_style; py_str count])
              style_counts
       ++ [["TOTAL"; py_str (Z.of_nat (List.length books))]])%list
    /\ StronglySorted (fun x y => String.ltb (fst y) (fst x) = true)
         style_counts
    /\ (forall book_style count,
          In (book_style, count) style_counts ->
          1 <= count
          /\ count
             = Z.of_nat
                 (List.length
                    (filter (fun book =>
                               String.eqb book_style (Entry.book_style book))
                            books)))
    /\ (forall book,
          In book books ->
          exists count, In (Entry.book_style book, count) style_counts).
Proof.
  destruct (Counter_spec (map Entry.book_style books))
    as (Hnd & Hsum & Hlook).
  set (counts := Counter (map Entry.book_style books)) in *.
  pose proof (sorted_perm (fun x y => item_ltb y x) counts) as Hperm.
  exists (sorted (fun x y => item_ltb y x) counts).
  split; [| split; [| split]].
  - unfold _create_book_style_summary_table. fold counts.
    rewrite fold_left_add, Hsum, length_map, <- app_assoc. reflexivity.
  - apply descending_keys.
    + apply (sorted_ordered (fun x y => item_ltb y x)).
      * intros x y. apply item_ltb_asym.
      * intros x y z Hxy Hyz. exact (item_ltb_false_trans _ _ _ Hxy Hyz).
    + apply (Permutation_NoDup
               (Permutation_map fst (Permutation_sym Hperm)) Hnd).
  - intros book_style count Hin.
    apply (Permutation_in _ Hperm) in Hin.
    apply (dict_lookup_In _ _ _ Hnd) in Hin. rewrite Hlook in Hin.
    rewrite filter_map_commute in Hin.
    destruct (filter _ books) as [|b l]; [discriminate |].
    cbn [map] in Hin. injection Hin as <-.
    rewrite length_cons, length_map. cbn [List.length]. split; [lia | reflexivity].
  - intros book Hin.
    assert (In (Entry.book_style book) (dict_keys counts)) as Hkey.
    { apply dict_keys_lookup. rewrite Hlook, filter_map_commute.
      destruct (filter _ books) as [|b l] eqn:Hf; [| now eexists].
      assert (In book []) as [].
      rewrite <- Hf. apply filter_In. split; [exact Hin |].
      apply String.eqb_refl. }
    apply in_map_iff in Hkey as ([k c] & Hk & Hkc). cbn [fst] in Hk.
    subst k. exists c. apply (Permutation_in _ (Permutation_sym Hperm) Hkc).
Qed.

(** X13.  The three totals of a page agree: the [total_books] of its
    header is the number of rows of its books table and the number in
    the [TOTAL] row of its summary table, and it is at least 1; the
    header carries the bank name and the order number and date passed
    in. *)
Theorem page_totals_agree (expanded_orders : list Book.t)
    (order_number order_date : string) :
  exists packing_lists,
    generate_packing_lists expanded_orders order_number order_date
    = Ok packing_lists
    /\ forall p,
         In p packing_lists ->
         1 <= PackingList.total_books p
         /\ PackingList.total_books p
            = Z.of_nat
                (List.length
                   (_create_books_table (PackingList.books p)
                      (PackingList.delivery_branch_name p)))
         /\ last (_create_book_style_summary_table (PackingList.books p)) []
            = ["TOTAL"; py_str (PackingList.total_books p)]
         /\ PackingList.bank_name p = "KCB Bank Ltd"
         /\ PackingList.order_number p = order_number
         /\ PackingList.order_date p = order_date.
Proof.
  destruct (generate_packing_lists_facts expanded_orders order_number
              order_date) as (packing_lists & Hgen & Hp & _).
  exists packing_lists. split; [exact Hgen |].
  intros p Hin.
  destruct (Hp p Hin)
    as (first & others & _ & _ & Hbank & Hnum & Hdate & _ & Htotal & Hbooks).
  split; [rewrite Htotal; cbn [List.length]; lia |].
  split; [| split; [| now repeat split]].
  - unfold _create_books_table.
    rewrite length_map, (Permutation_length (sorted_perm _ _)), Hbooks,
      length_map. exact Htotal.
  - destruct (Counter_spec (map Entry.book_style (PackingList.books p)))
      as (_ & Hsum & _).
    unfold _create_book_style_summary_table.
    rewrite last_last.
    rewrite fold_left_add, Hsum, length_map, Hbooks, length_map, Htotal.
    reflexivity.
Qed.

End PageTables.

(** * Further properties of a batch *)

Section BatchFacts.

Import DATFileParser PackingListGenerator PackingListPDFMapper.
Import PackingListOrchestrator Samples BatchSamples.

(** One file, when the parser already holds an order whose start serial
    does not read as an integer. *)
Lemma process_dat_file_after_bad_serial (now : datetime) (self : Orchestrator)
    (dat_file : DatFile) (bad : OrderRecord) :
  In bad (orders (parser self)) ->
  (forall start, py_int (cheque_start_serial bad) <> Ok start) ->
  snd (process_dat_file now self dat_file) = Raise ValueError
  /\ In bad (orders (parser (fst (process_dat_file now self dat_file)))).
Proof.
  intros Hin Hbad.
  destruct (parse_file_unfold now (parser self) (path dat_file)
              (readlines dat_file))
    as (new & Horders & _ & _ & _ & _ & _ & Hres).
  assert (In bad (orders (fst (parse_file now (parser self) (path dat_file)
                                 (readlines dat_file))))) as Hin'
    by (rewrite Horders; apply in_or_app; now left).
  rewrite (expand_loop_bad_serial _ bad Hin' Hbad) in Hres.
  unfold process_dat_file.
  destruct (parse_file now (parser self) (path dat_file) (readlines dat_file))
    as [p r].
  cbn [fst snd] in *. subst r. now split.
Qed.

(** One file: the parser of the orchestrator gains the orders a new
    parser reads from the file, whatever becomes of the file. *)
Lemma process_dat_file_orders (now : datetime) (self : Orchestrator)
    (dat_file : DatFile) :
  orders (parser (fst (process_dat_file now self dat_file)))
  = (orders (parser self)
     ++ orders (fst (parse_file now DATFileParser.__init__ (path dat_file)
                       (readlines dat_file))))%list.
Proof.
  destruct (parse_file_unfold now (parser self) (path dat_file)
              (readlines dat_file))
    as (new & Horders & _ & _ & _ & _ & Hother & _).
  rewrite (Hother DATFileParser.__init__). cbn [DATFileParser.__init__ orders app].
  unfold process_dat_file.
  destruct (parse_file now (parser self) (path dat_file) (readlines dat_file))
    as [p [parsed_data | e]]; cbn [fst snd] in *; [| exact Horders].
  destruct (generate_packing_lists _ _ _); exact Horders.
Qed.

(** X16.  A start serial that does not read as an integer stays in the
    parser of the orchestrator: from then on every file of a batch raises,
    whatever it holds, and the batch yields no document. *)
Theorem batch_yields_nothing_after_bad_serial (now : datetime)
    (self : Orchestrator) (dat_files : list DatFile) :
  (exists bad,
     In bad (orders (parser self))
     /\ forall start, py_int (cheque_start_serial bad) <> Ok start) ->
  snd (process_multiple_files now self dat_files) = []
  /\ forall dat_file,
       snd (process_dat_file now
              (fst (process_multiple_files now self dat_files)) dat_file)
       = Raise ValueError.
Proof.
  intros (bad & Hin & Hbad). unfold process_multiple_files.
  assert (forall generated_pdfs,
            snd (process_loop now self dat_files generated_pdfs)
            = generated_pdfs
            /\ In bad (orders (parser
                                 (fst (process_loop now self dat_files
                                         generated_pdfs))))) as Hloop.
  { revert self Hin.
    induction dat_files as [|dat_file rest IH]; intros self Hin generated_pdfs;
      [now split |].
    cbn [process_loop].
    destruct (process_dat_file_after_bad_serial now self dat_file bad Hin Hbad)
      as [Hraise Hin'].
    destruct (process_dat_file now self dat_file) as [self' r].
    cbn [fst snd] in *. subst r. now apply IH. }
  destruct (Hloop []) as [Hnone Hin'].
  split; [exact Hnone |].
  intros dat_file.
  now apply (process_dat_file_after_bad_serial now _ dat_file bad).
Qed.

Lemma batch_yields_nothing_after_bad_serial_witness :
  snd (process_multiple_files now0
         {| parser := parser_with [bad_order] |} [file_a; file_b]) = [].
Proof.
  apply (batch_yields_nothing_after_bad_serial now0
           {| parser := parser_with [bad_order] |} [file_a; file_b]).
  exists bad_order. split; [simpl; auto |].
  intros start. vm_compute. discriminate.
Defined.

(** X19.  Over a batch of files that are read, the parser of the
    orchestrator ends up holding the orders it held followed by the orders
    of every file, in the order of the batch, whether the files yield a
    document or raise; and the batch yields at most one document per
    file. *)
Theorem batch_accumulates_orders (now : datetime) (self : Orchestrator)
    (dat_files : list DatFile) :
  let read dat_file :=
    orders (fst (parse_file now DATFileParser.__init__ (path dat_file)
                   (readlines dat_file))) in
  orders (parser (fst (process_multiple_files now self dat_files)))
  = (orders (parser self) ++ List.concat (map read dat_files))%list
  /\ (List.length (snd (process_multiple_files now self dat_files))
      <= List.length dat_files)%nat.
Proof.
  intros read. unfold process_multiple_files.
  assert (forall self0 generated_pdfs,
            orders (parser
                      (fst (process_loop now self0 dat_files generated_pdfs)))
            = (orders (parser self0)
               ++ List.concat (map read dat_files))%list
            /\ (List.length
                  (snd (process_loop now self0 dat_files generated_pdfs))
                <= List.length generated_pdfs + List.length dat_files)%nat)
    as Hloop.
  { induction dat_files as [|dat_file rest IH]; intros self0 generated_pdfs.
    - cbn. rewrite app_nil_r. split; [reflexivity | lia].
    - cbn [process_loop map List.concat List.length].
      pose proof (process_dat_file_orders now self0 dat_file) as Horders.
      fold (read dat_file) in Horders.
      destruct (process_dat_file now self0 dat_file) as [self' [pdf | e]];
        cbn [fst] in Horders.
      + destruct (IH self' (generated_pdfs ++ [pdf])%list) as [Hord Hlen].
        rewrite Hord, Horders, <- app_assoc. split; [reflexivity |].
        rewrite List.length_app in Hlen. cbn [List.length] in Hlen. lia.
      + destruct (IH self' generated_pdfs) as [Hord Hlen].
        rewrite Hord, Horders, <- app_assoc. split; [reflexivity | lia]. }
  destruct (Hloop self []) as [Hord Hlen].
  split; [exact Hord | exact Hlen].
Qed.

End BatchFacts.

(** * The content of a document *)

Section DocumentFacts.

Import DATFileParser PackingListGenerator PackingListPDFMapper.
Import PackingListOrchestrator Samples BatchSamples.

(** X18.  On the page of a branch every row of the books table shows the
    delivery branch code of the page in its branch code column, not the
    sort code of the account, and the branch name of the page in its last
    column. *)
Theorem rows_carry_page_branch (expanded_orders : list Book.t)
    (order_number order_date : string) :
  exists packing_lists,
    generate_packing_lists expanded_orders order_number order_date
    = Ok packing_lists
    /\ forall p row,
         In p packing_lists ->
         In row (_create_books_table (PackingList.books p)
                   (PackingList.delivery_branch_name p)) ->
         let '(_, _, _, _, branch_code, delivery_branch) := row in
         branch_code = PackingList.delivery_branch_code p
         /\ delivery_branch = PackingList.delivery_branch_name p.
Proof.
  destruct (generate_packing_lists_facts expanded_orders order_number
              order_date) as (packing_lists & Hgen & Hp & _).
  exists packing_lists. split; [exact Hgen |].
  intros p row Hin Hrow.
  destruct (Hp p Hin)
    as (first & others & Hf & _ & _ & _ & _ & _ & _ & Hbooks).
  unfold _create_books_table in Hrow.
  apply in_map_iff in Hrow as (entry & <- & Hentry).
  apply (Permutation_in _ (sorted_perm _ _)) in Hentry.
  rewrite Hbooks, <- Hf in Hentry.
  apply in_map_iff in Hentry as (book & <- & Hbook).
  apply filter_In in Hbook as [_ Hcode]. apply String.eqb_eq in Hcode.
  cbn [book_row book_entry Entry.branch_code]. now split.
Qed.



End DocumentFacts.
